(** * sql-migrate/config.go: configuration and connection bootstrap

    A shallow embedding of [ReadConfig], [GetEnvironment], [GetConnection],
    [RegisterTlsConfig] and [isTlsEnabled], together with the parts of the
    Go runtime they call.  Go strings are byte strings, modelled by Rocq
    strings (lists of 8-bit characters).  Everything outside the process
    (files, YAML parser, certificate parser, database drivers) is an oracle
    gathered in [runtime]; the package-level variables the code reads and
    writes form [state]; every call that leaves the function is logged. *)

From stdpp Require Import gmap strings list fin_maps.
From Stdlib Require Import Ascii NArith.

Local Open Scope N_scope.
Local Open Scope stdpp_scope.

(** ** Byte-string helpers *)

Fixpoint str_take (n : nat) (s : string) : string :=
  match n, s with
  | S n', String c s' => String c (str_take n' s')
  | _, _ => ""
  end.

(** ** Package [strings] *)

Module strings.

Fixpoint HasPrefix (s prefix : string) : bool :=
  match prefix, s with
  | EmptyString, _ => true
  | String p prefix', String c s' =>
      if decide (c = p) then HasPrefix s' prefix' else false
  | String _ _, EmptyString => false
  end.

(** [strings.Contains(s, substr)]: some suffix of [s] starts with [substr]. *)
Fixpoint Contains (s substr : string) : bool :=
  HasPrefix s substr ||
  match s with
  | EmptyString => false
  | String _ s' => Contains s' substr
  end.

(** First position of byte [c] in [s]. *)
Fixpoint IndexByte (s : string) (c : ascii) : option nat :=
  match s with
  | EmptyString => None
  | String a s' => if decide (a = c) then Some 0%nat else S <$> IndexByte s' c
  end.

End strings.

(** ** Errors

    [errors.New] and [fmt.Errorf] without [%w] build a plain error from
    its text; [fmt.Errorf] with a trailing [%w] keeps the cause. *)

Inductive error : Type :=
| errorString (text : string)
| wrapError (context : string) (cause : error).

Fixpoint Error (e : error) : string :=
  match e with
  | errorString text => text
  | wrapError context cause => context +:+ Error cause
  end.

Module errors.
Definition New (text : string) : error := errorString text.
End errors.

Module fmt.
(** [fmt.Errorf(context + "%w", err)] *)
Definition Errorf_w (context : string) (err : error) : error :=
  wrapError context err.
(** [fmt.Errorf(text)] *)
Definition Errorf (text : string) : error := errorString text.
(** [fmt.Errorf(context + "%s", arg)] *)
Definition Errorf_s (context : string) (arg : string) : error :=
  errorString (context +:+ arg).
End fmt.

(** ** Data *)

Record Environment : Type := mkEnvironment {
  Dialect : string;
  DataSource : string;
  Dir : string;
  TableName : string;
  SchemaName : string;
  IgnoreUnknown : bool
}.

Definition set_DataSource (v : string) (env : Environment) : Environment :=
  mkEnvironment (Dialect env) v (Dir env) (TableName env) (SchemaName env)
    (IgnoreUnknown env).

Definition set_Dir (v : string) (env : Environment) : Environment :=
  mkEnvironment (Dialect env) (DataSource env) v (TableName env)
    (SchemaName env) (IgnoreUnknown env).

(** The capability handles of gorp stored in [dialects]. *)
Module gorp.
Inductive Dialect : Type :=
| SqliteDialect
| PostgresDialect
| MySQLDialect (Engine Encoding : string).
End gorp.

Module tls.
Record Config : Type := mkConfig {
  RootCAs : list string;
  ServerName : string
}.
Global Instance Config_eq_dec : EqDecision Config.
Proof. solve_decision. Defined.
End tls.

Module sql.
(** A handle as [sql.Open] returns it: it remembers what it was opened with. *)
Record DB : Type := mkDB {
  driverName : string;
  dataSourceName : string
}.
Global Instance DB_eq_dec : EqDecision DB.
Proof. solve_decision. Defined.
End sql.

(** The settings of the migration engine (package [migrate]). *)
Record MigrationSet : Type := mkMigrationSet {
  mig_TableName : string;
  mig_SchemaName : string;
  mig_IgnoreUnknown : bool
}.

(** Package-level mutable state of the process: the two flag variables of
    this file, the engine's settings and the MySQL driver's TLS registry. *)
Record state : Type := mkState {
  ConfigFile : string;
  ConfigEnvironment : string;
  migSet : MigrationSet;
  tlsConfigRegistry : gmap string tls.Config
}.

(** What the process finds outside itself.  A pointer to an [Environment]
    that may be nil is an [option]. *)
Record runtime : Type := mkRuntime {
  rt_files : string → error + string;
  rt_environ : gmap string string;
  rt_yaml : string → error + gmap string (option Environment);
  rt_pem_certs : string → list string;
  rt_open : gmap string tls.Config → string → string → option error;
  rt_ping : gmap string tls.Config → sql.DB → option error
}.

(** Calls that leave the functions of this file, in program order. *)
Inductive event : Type :=
| ev_ReadFile (name : string)
| ev_SetTable (name : string)
| ev_SetSchema (name : string)
| ev_SetIgnoreUnknown (v : bool)
| ev_RegisterTlsConfig (pemPath tlsConfigKey serverName : string)
| ev_mysql_RegisterTLSConfig (key : string) (config : tls.Config)
| ev_sql_Open (driverName dataSourceName : string)
| ev_Ping (db : sql.DB).

Global Instance event_eq_dec : EqDecision event.
Proof. solve_decision. Defined.

(** ** The monad: reader of [runtime], state, errors, call log *)

Inductive result (A : Type) : Type :=
| Ok (a : A)
| Fail (err : error).
Global Arguments Ok {A} a.
Global Arguments Fail {A} err.

Record outcome (A : Type) : Type := mkOutcome {
  res : result A;
  final : state;
  calls : list event
}.
Global Arguments mkOutcome {A} res final calls.
Global Arguments res {A} o.
Global Arguments final {A} o.
Global Arguments calls {A} o.

Definition M (A : Type) : Type := runtime → state → outcome A.

Global Instance M_ret : MRet M := λ A a _ st, mkOutcome (Ok a) st [].

Global Instance M_bind : MBind M := λ A B f m rt st,
  match m rt st with
  | mkOutcome (Ok a) st1 calls1 =>
      match f a rt st1 with
      | mkOutcome r st2 calls2 => mkOutcome r st2 (calls1 ++ calls2)
      end
  | mkOutcome (Fail err) st1 calls1 => mkOutcome (Fail err) st1 calls1
  end.

Definition fail {A : Type} (err : error) : M A :=
  λ _ st, mkOutcome (Fail err) st [].

Definition ask : M runtime := λ rt st, mkOutcome (Ok rt) st [].
Definition get : M state := λ _ st, mkOutcome (Ok st) st [].
Definition put (st : state) : M unit := λ _ _, mkOutcome (Ok tt) st [].
Definition emit (ev : event) : M unit := λ _ st, mkOutcome (Ok tt) st [ev].

(** A Go call returning [(value, err)]. *)
Definition lift_sum {A : Type} (r : error + A) : M A :=
  match r with
  | inl err => fail err
  | inr a => mret a
  end.

(** A Go call returning only [err]. *)
Definition lift_err (r : option error) : M unit :=
  match r with
  | Some err => fail err
  | None => mret tt
  end.

(** [v, err := m; if err != nil { return ..., h(err) }] *)
Definition on_error {A : Type} (h : error → error) (m : M A) : M A :=
  λ rt st,
  match m rt st with
  | mkOutcome (Ok a) st1 calls1 => mkOutcome (Ok a) st1 calls1
  | mkOutcome (Fail err) st1 calls1 => mkOutcome (Fail (h err)) st1 calls1
  end.

(** ** Package [os]

    [ReadFile], [Getenv], [Expand] and [ExpandEnv] of the Go standard
    library (os/file.go and os/env.go), which config.go calls. *)

Module os.

(** [os.ReadFile(name)] *)
Definition ReadFile (name : string) : M string :=
  emit (ev_ReadFile name);;
  rt ← ask;
  lift_sum (rt_files rt name).

(** [os.Getenv(key)]: the value, or the empty string when unset. *)
Definition getenv (rt : runtime) (key : string) : string :=
  default "" (rt_environ rt !! key).

Definition Getenv (key : string) : M string :=
  rt ← ask;
  mret (getenv rt key).

Definition isShellSpecialVar (c : ascii) : bool :=
  match c with
  | "*" | "#" | "$" | "@" | "!" | "?" | "-"
  | "0" | "1" | "2" | "3" | "4" | "5" | "6" | "7" | "8" | "9" => true
  | _ => false
  end%char.

Definition isAlphaNum (c : ascii) : bool :=
  let n := N_of_ascii c in
  bool_decide (c = "_"%char)
  || (48 <=? n) && (n <=? 57)
  || (97 <=? n) && (n <=? 122)
  || (65 <=? n) && (n <=? 90).

(** Length of the longest prefix of alphanumerics. *)
Fixpoint scanAlphaNum (s : string) : nat :=
  match s with
  | String c s' => if isAlphaNum c then S (scanAlphaNum s') else 0%nat
  | EmptyString => 0%nat
  end.

(** The scan for the closing brace in [getShellName]; [body] is what follows
    the opening one. *)
Definition scanBrace (body : string) : string * nat :=
  match strings.IndexByte body "}" with
  | Some 0%nat => ("", 2%nat)
  | Some k => (str_take k body, S (S k))
  | None => ("", 1%nat)
  end.

(** [getShellName(s)] for a non-empty [s]: the name that follows a dollar
    sign and the number of bytes it takes up. *)
Definition getShellName (s : string) : string * nat :=
  match s with
  | EmptyString => ("", 0%nat)
  | String c0 body =>
      if bool_decide (c0 = "{"%char) then
        match body with
        | String c1 (String c2 _) =>
            if isShellSpecialVar c1 && bool_decide (c2 = "}"%char) then
              (String c1 "", 3%nat)
            else scanBrace body
        | _ => scanBrace body
        end
      else if isShellSpecialVar c0 then (String c0 "", 1%nat)
      else (str_take (scanAlphaNum s) s, scanAlphaNum s)
  end.

(** The loop of [os.Expand]: [skip] bytes of a name just read are passed
    over; a dollar sign that is not the last byte starts a name. *)
Fixpoint expand_from (mapping : string → string) (skip : nat) (s : string)
  : string :=
  match s with
  | EmptyString => ""
  | String c rest =>
      match skip with
      | S k => expand_from mapping k rest
      | O =>
          if bool_decide (c = "$"%char) && negb (bool_decide (rest = "")) then
            let '(name, w) := getShellName rest in
            (if bool_decide (name = "") then
               if bool_decide (w = 0%nat) then "$" else ""
             else mapping name)
            +:+ expand_from mapping w rest
          else String c (expand_from mapping 0 rest)
      end
  end.

Definition Expand (s : string) (mapping : string → string) : string :=
  expand_from mapping 0 s.

(** [os.ExpandEnv(s)] is [os.Expand(s, os.Getenv)]. *)
Definition ExpandEnv (s : string) : M string :=
  rt ← ask;
  mret (Expand s (getenv rt)).

End os.

(** ** Package [yaml] *)

Module yaml.
(** [yaml.Unmarshal(file, config)] into a fresh [map[string]*Environment]. *)
Definition Unmarshal (file : string) : M (gmap string (option Environment)) :=
  rt ← ask;
  lift_sum (rt_yaml rt file).
End yaml.

(** ** Package [migrate]: the three setters *)

Module migrate.

(** Modelled from the spec: package migrate is not under src/; the setter
    stores its argument in the engine's global table-name setting. *)
Definition SetTable (name : string) : M unit :=
  emit (ev_SetTable name);;
  st ← get;
  put (mkState (ConfigFile st) (ConfigEnvironment st)
         (mkMigrationSet name (mig_SchemaName (migSet st))
            (mig_IgnoreUnknown (migSet st)))
         (tlsConfigRegistry st)).

(** Modelled from the spec: package migrate is not under src/; the setter
    stores its argument in the engine's global schema-name setting. *)
Definition SetSchema (name : string) : M unit :=
  emit (ev_SetSchema name);;
  st ← get;
  put (mkState (ConfigFile st) (ConfigEnvironment st)
         (mkMigrationSet (mig_TableName (migSet st)) name
            (mig_IgnoreUnknown (migSet st)))
         (tlsConfigRegistry st)).

(** Modelled from the spec: package migrate is not under src/; the setter
    stores whether unknown applied migrations are tolerated. *)
Definition SetIgnoreUnknown (v : bool) : M unit :=
  emit (ev_SetIgnoreUnknown v);;
  st ← get;
  put (mkState (ConfigFile st) (ConfigEnvironment st)
         (mkMigrationSet (mig_TableName (migSet st))
            (mig_SchemaName (migSet st)) v)
         (tlsConfigRegistry st)).

End migrate.

(** ** Packages [x509], [mysql] and [database/sql] *)

Module x509.
(** [pool.AppendCertsFromPEM(pem)] on a new pool: the certificates found,
    and whether there was at least one. *)
Definition AppendCertsFromPEM (pem : string) : M (list string * bool) :=
  rt ← ask;
  let certs := rt_pem_certs rt pem in
  mret (certs, negb (bool_decide (certs = []))).
End x509.

Module mysql.
(** [mysql.RegisterTLSConfig(key, config)]: an entry under the same key is
    overwritten.  The caller drops what the driver returns. *)
Definition RegisterTLSConfig (key : string) (config : tls.Config) : M unit :=
  emit (ev_mysql_RegisterTLSConfig key config);;
  st ← get;
  put (mkState (ConfigFile st) (ConfigEnvironment st) (migSet st)
         (<[key := config]> (tlsConfigRegistry st))).
End mysql.

Module sqldb.
(** [sql.Open(driverName, dataSourceName)] *)
Definition Open (driverName dataSourceName : string) : M sql.DB :=
  emit (ev_sql_Open driverName dataSourceName);;
  rt ← ask;
  st ← get;
  lift_err (rt_open rt (tlsConfigRegistry st) driverName dataSourceName);;
  mret (sql.mkDB driverName dataSourceName).

(** [db.Ping()] *)
Definition Ping (db : sql.DB) : M unit :=
  emit (ev_Ping db);;
  rt ← ask;
  st ← get;
  lift_err (rt_ping rt (tlsConfigRegistry st) db).
End sqldb.

(** ** config.go *)

Definition dialects : gmap string gorp.Dialect :=
  <["sqlite3" := gorp.SqliteDialect]>
  (<["postgres" := gorp.PostgresDialect]>
  (<["mysql" := gorp.MySQLDialect "InnoDB" "UTF8"]> ∅)).

Definition ReadConfig : M (gmap string (option Environment)) :=
  st ← get;
  file ← os.ReadFile (ConfigFile st);
  yaml.Unmarshal file.

(** [config[key]] on a map of pointers: nil when the key is missing, and
    nil when the key is mapped to nil. *)
Definition map_index (config : gmap string (option Environment))
    (key : string) : option Environment :=
  default None (config !! key).

Definition GetEnvironment : M Environment :=
  config ← ReadConfig;
  st ← get;
  match map_index config (ConfigEnvironment st) with
  | None => fail (errors.New ("No environment: " +:+ ConfigEnvironment st))
  | Some env =>
      if bool_decide (Dialect env = "") then
        fail (errors.New "No dialect specified")
      else if bool_decide (DataSource env = "") then
        fail (errors.New "No data source specified")
      else
        ds ← os.ExpandEnv (DataSource env);
        let env := set_DataSource ds env in
        let env :=
          if bool_decide (Dir env = "") then set_Dir "migrations" env
          else env in
        (if bool_decide (TableName env ≠ "") then
           migrate.SetTable (TableName env)
         else mret tt);;
        (if bool_decide (SchemaName env ≠ "") then
           migrate.SetSchema (SchemaName env)
         else mret tt);;
        migrate.SetIgnoreUnknown (IgnoreUnknown env);;
        mret env
  end.

Definition isTlsEnabled (env : Environment) : bool :=
  strings.Contains (DataSource env) "tls=custom".

Definition RegisterTlsConfig (pemPath tlsConfigKey serverName : string)
  : M unit :=
  emit (ev_RegisterTlsConfig pemPath tlsConfigKey serverName);;
  pem ← os.ReadFile pemPath;
  '(caCertPool, ok) ← x509.AppendCertsFromPEM pem;
  if negb ok then
    fail (fmt.Errorf "cannot append certs from PEM")
  else
    mysql.RegisterTLSConfig tlsConfigKey (tls.mkConfig caCertPool serverName).

Definition GetConnection (env : Environment) : M (sql.DB * string) :=
  (if bool_decide (Dialect env = "mysql") && isTlsEnabled env then
     pemPath ← os.Getenv "MYSQL_CA_CERT_FILE";
     serverName ← os.Getenv "MYSQL_HOST";
     on_error (fmt.Errorf_w "cannot register TLS config: ")
       (RegisterTlsConfig pemPath "custom" serverName)
   else mret tt);;
  db ← on_error (fmt.Errorf_w "cannot connect to database: ")
         (sqldb.Open (Dialect env) (DataSource env));
  on_error (fmt.Errorf_w "cannot ping database: ") (sqldb.Ping db);;
  if bool_decide (is_Some (dialects !! Dialect env)) then
    mret (db, Dialect env)
  else
    fail (fmt.Errorf_s "unsupported dialect: " (Dialect env)).

(** ** What the specification says about placeholders

    A data source read as a sequence of literal text and references to
    process environment variables, the latter written [${VAR}] or [$VAR].
    [source] is the text as it stands in the configuration file and
    [instantiate] the text the specification expects after expansion. *)






Fixpoint all_bytes (p : ascii → bool) (s : string) : bool :=
  match s with
  | EmptyString => true
  | String c s' => p c && all_bytes p s'
  end.




(** ** Sample process used to exercise the theorems *)

Definition dquote : string := String "034"%char "".

(** [sql.Open] of a binary that links the three drivers config.go imports:
    any other driver name is unknown to [database/sql]. *)
Definition open_three_drivers (_ : gmap string tls.Config)
    (driverName _ : string) : option error :=
  if bool_decide (driverName ∈ ["mysql"; "postgres"; "sqlite3"]) then None
  else Some (errorString ("sql: unknown driver " +:+ dquote +:+ driverName
                          +:+ dquote +:+ " (forgotten import?)")).

Definition env_development : Environment :=
  mkEnvironment "sqlite3" "$DB_URL" "" "" "" false.
Definition env_production : Environment :=
  mkEnvironment "postgres" "postgres://u:p@host/db" "" "custom_migrations" ""
    false.
Definition env_aurora : Environment :=
  mkEnvironment "mysql" "u:p@tcp(${MYSQL_HOST}:3306)/db?tls=custom" "db/mig"
    "" "app" true.
Definition env_nodialect : Environment :=
  mkEnvironment "" "" "" "tbl" "sch" true.
Definition env_nosource : Environment :=
  mkEnvironment "postgres" "" "" "tbl" "sch" true.
Definition env_oracle : Environment :=
  mkEnvironment "oracle" "u/p@host" "migrations" "" "" false.

Definition sample_config : gmap string (option Environment) :=
  <["development" := Some env_development]>
  (<["production" := Some env_production]>
  (<["aurora" := Some env_aurora]>
  (<["nodialect" := Some env_nodialect]>
  (<["nosource" := Some env_nosource]>
  (<["staging" := None]> ∅))))).

Definition sample_runtime : runtime :=
  mkRuntime
    (λ name, if bool_decide (name = "dbconfig.yml") then inr "<yaml>"
             else inl (errorString ("open " +:+ name
                                    +:+ ": no such file or directory")))
    (<["DB_URL" := "sqlite:///tmp/x.db"]>
     (<["MYSQL_CA_CERT_FILE" := "/nonexistent/ca.pem"]>
     (<["MYSQL_HOST" := "db.internal"]> ∅)))
    (λ file, if bool_decide (file = "<yaml>") then inr sample_config
             else inl (errorString "yaml: unmarshal errors"))
    (λ _, [])
    open_three_drivers
    (λ _ _, None).

Definition sample_state (environment : string) : state :=
  mkState "dbconfig.yml" environment (mkMigrationSet "" "" false) ∅.

(** ** Closed forms of a successful resolution *)

(** The descriptor [GetEnvironment] hands back for a valid entry. *)
Definition resolved (rt : runtime) (env : Environment) : Environment :=
  mkEnvironment (Dialect env)
    (os.Expand (DataSource env) (os.getenv rt))
    (if bool_decide (Dir env = "") then "migrations" else Dir env)
    (TableName env) (SchemaName env) (IgnoreUnknown env).

(** The engine settings after a successful resolution. *)
Definition settings_after (st : state) (env : Environment) : MigrationSet :=
  mkMigrationSet
    (if bool_decide (TableName env = "") then mig_TableName (migSet st)
     else TableName env)
    (if bool_decide (SchemaName env = "") then mig_SchemaName (migSet st)
     else SchemaName env)
    (IgnoreUnknown env).

(** The calls of a successful resolution, in order. *)
Definition calls_after (st : state) (env : Environment) : list event :=
  [ev_ReadFile (ConfigFile st)]
  ++ (if bool_decide (TableName env = "") then []
      else [ev_SetTable (TableName env)])
  ++ (if bool_decide (SchemaName env = "") then []
      else [ev_SetSchema (SchemaName env)])
  ++ [ev_SetIgnoreUnknown (IgnoreUnknown env)].

(** ** Running the monad *)

Ltac simp_run :=
  cbv beta iota in *;
  cbn [ConfigFile ConfigEnvironment migSet tlsConfigRegistry res final calls
       app negb] in *.

Ltac run_monad :=
  cbv [mbind M_bind mret M_ret fail ask get put emit lift_sum lift_err
       on_error] in *;
  simp_run.

Ltac run_config :=
  cbv [GetEnvironment ReadConfig os.ReadFile yaml.Unmarshal os.ExpandEnv
       migrate.SetTable migrate.SetSchema migrate.SetIgnoreUnknown
       mbind M_bind mret M_ret fail ask get put emit lift_sum lift_err
       on_error] in *;
  simp_run.

Ltac run_connection :=
  cbv [GetConnection RegisterTlsConfig os.ReadFile os.Getenv
       x509.AppendCertsFromPEM mysql.RegisterTLSConfig sqldb.Open sqldb.Ping
       mbind M_bind mret M_ret fail ask get put emit lift_sum lift_err
       on_error] in *;
  simp_run.

(** ** The rest of config.go: [ConfigFlags] and [GetVersion] *)

(** Package [flag], as far as [ConfigFlags] uses it: the flags a set has
    defined, each with the variable it stores to. *)
Module flag.

(** The string variable a flag was given a pointer to. *)
Inductive variable : Type :=
| var_ConfigFile
| var_ConfigEnvironment.

Record Flag : Type := mkFlag {
  Name : string;
  Usage : string;
  Value : variable;
  DefValue : string
}.

Global Instance variable_eq_dec : EqDecision variable.
Proof. solve_decision. Defined.
Global Instance Flag_eq_dec : EqDecision Flag.
Proof. solve_decision. Defined.

(** A call either returns or panics with a message. *)
Inductive call (A : Type) : Type :=
| Returns (a : A)
| Panics (msg : string).
Global Arguments Returns {A} a.
Global Arguments Panics {A} msg.

Definition store (p : variable) (value : string) (st : state) : state :=
  match p with
  | var_ConfigFile =>
      mkState value (ConfigEnvironment st) (migSet st) (tlsConfigRegistry st)
  | var_ConfigEnvironment =>
      mkState (ConfigFile st) value (migSet st) (tlsConfigRegistry st)
  end.

(** [f.StringVar(p, name, value, usage)]: the variable takes the default
    at once; defining a name twice panics, as does a name that starts with
    a dash or contains an equals sign (messages as for a set without a
    name of its own). *)
Definition StringVar (p : variable) (name value usage : string)
    (f : gmap string Flag) (st : state) : call (gmap string Flag * state) :=
  let st := store p value st in
  if strings.HasPrefix name "-" then
    Panics ("flag " +:+ dquote +:+ name +:+ dquote +:+ " begins with -")
  else if strings.Contains name "=" then
    Panics ("flag " +:+ dquote +:+ name +:+ dquote +:+ " contains =")
  else if bool_decide (is_Some (f !! name)) then
    Panics ("flag redefined: " +:+ name)
  else Returns (<[name := mkFlag name usage p value]> f, st).

End flag.

Definition ConfigFlags (f : gmap string flag.Flag) (st : state)
  : flag.call (gmap string flag.Flag * state) :=
  match flag.StringVar flag.var_ConfigFile "config" "dbconfig.yml"
          "Configuration file to use." f st with
  | flag.Panics msg => flag.Panics msg
  | flag.Returns (f, st) =>
      flag.StringVar flag.var_ConfigEnvironment "env" "development"
        "Environment to use." f st
  end.

(** Package [runtime/debug], as far as [GetVersion] uses it. *)
Module debug.
Record ModuleInfo : Type := mkModule {
  Path : string;
  Version : string
}.
Record BuildInfo : Type := mkBuildInfo {
  GoVersion : string;
  Main : ModuleInfo
}.
End debug.

(** [GetVersion], given what [debug.ReadBuildInfo()] returns: the build
    information when the binary carries it ([ok] true), nothing otherwise. *)
Definition GetVersion (ReadBuildInfo : option debug.BuildInfo) : string :=
  match ReadBuildInfo with
  | Some buildInfo =>
      if bool_decide (debug.Version (debug.Main buildInfo) ≠ "(devel)") then
        debug.Version (debug.Main buildInfo)
      else "dev"
  | None => "dev"
  end.

(** ** Closed forms of the two halves of [GetConnection] *)

(** The TLS half: nothing unless the descriptor asks for the custom profile. *)
Definition tls_step (env : Environment) (rt : runtime) (st : state)
  : outcome unit :=
  if bool_decide (Dialect env = "mysql") && isTlsEnabled env then
    match rt_files rt (os.getenv rt "MYSQL_CA_CERT_FILE") with
    | inl err =>
        mkOutcome (Fail (fmt.Errorf_w "cannot register TLS config: " err)) st
          [ev_RegisterTlsConfig (os.getenv rt "MYSQL_CA_CERT_FILE") "custom"
             (os.getenv rt "MYSQL_HOST");
           ev_ReadFile (os.getenv rt "MYSQL_CA_CERT_FILE")]
    | inr pem =>
        if bool_decide (rt_pem_certs rt pem = []) then
          mkOutcome
            (Fail (fmt.Errorf_w "cannot register TLS config: "
                     (fmt.Errorf "cannot append certs from PEM"))) st
            [ev_RegisterTlsConfig (os.getenv rt "MYSQL_CA_CERT_FILE")
               "custom" (os.getenv rt "MYSQL_HOST");
             ev_ReadFile (os.getenv rt "MYSQL_CA_CERT_FILE")]
        else
          mkOutcome (Ok tt)
            (mkState (ConfigFile st) (ConfigEnvironment st) (migSet st)
               (<["custom" := tls.mkConfig (rt_pem_certs rt pem)
                                (os.getenv rt "MYSQL_HOST")]>
                  (tlsConfigRegistry st)))
            [ev_RegisterTlsConfig (os.getenv rt "MYSQL_CA_CERT_FILE")
               "custom" (os.getenv rt "MYSQL_HOST");
             ev_ReadFile (os.getenv rt "MYSQL_CA_CERT_FILE");
             ev_mysql_RegisterTLSConfig "custom"
               (tls.mkConfig (rt_pem_certs rt pem)
                  (os.getenv rt "MYSQL_HOST"))]
    end
  else mkOutcome (Ok tt) st [].

(** The open half: open, probe, check the dialect. *)
Definition open_step (env : Environment) (rt : runtime) (st : state)
  : outcome (sql.DB * string) :=
  match rt_open rt (tlsConfigRegistry st) (Dialect env) (DataSource env) with
  | Some err =>
      mkOutcome (Fail (fmt.Errorf_w "cannot connect to database: " err)) st
        [ev_sql_Open (Dialect env) (DataSource env)]
  | None =>
      match rt_ping rt (tlsConfigRegistry st)
              (sql.mkDB (Dialect env) (DataSource env)) with
      | Some err =>
          mkOutcome (Fail (fmt.Errorf_w "cannot ping database: " err)) st
            [ev_sql_Open (Dialect env) (DataSource env);
             ev_Ping (sql.mkDB (Dialect env) (DataSource env))]
      | None =>
          mkOutcome
            (if bool_decide (is_Some (dialects !! Dialect env)) then
               Ok (sql.mkDB (Dialect env) (DataSource env), Dialect env)
             else Fail (fmt.Errorf_s "unsupported dialect: " (Dialect env)))
            st
            [ev_sql_Open (Dialect env) (DataSource env);
             ev_Ping (sql.mkDB (Dialect env) (DataSource env))]
      end
  end.

(** ** A second sample process: the CA file is there and holds a certificate *)

Definition tls_runtime : runtime :=
  mkRuntime
    (λ name, if bool_decide (name = "dbconfig.yml") then inr "<yaml>"
             else if bool_decide (name = "/etc/ssl/rds-ca.pem") then
               inr "<pem>"
             else inl (errorString ("open " +:+ name
                                    +:+ ": no such file or directory")))
    (<["DSN" := "u:p@tcp(db.internal:3306)/db?tls=custom"]>
     (<["MYSQL_CA_CERT_FILE" := "/etc/ssl/rds-ca.pem"]>
     (<["MYSQL_HOST" := "db.internal"]> ∅)))
    (λ file,
       if bool_decide (file = "<yaml>") then
         inr (<["development" :=
                  Some (mkEnvironment "mysql" "$DSN" "" "" "" false)]>
              (<["empty" :=
                  Some (mkEnvironment "sqlite3" "${UNSET}" "" "" "" false)]>
               ∅))
       else inl (errorString "yaml: unmarshal errors"))
    (λ pem, if bool_decide (pem = "<pem>") then ["<rds root ca>"] else [])
    open_three_drivers
    (λ _ _, None).

(** The first sample process with one more entry in its configuration. *)
Definition sample_runtime_more : runtime :=
  mkRuntime (rt_files sample_runtime) (rt_environ sample_runtime)
    (λ file, if bool_decide (file = "<yaml>") then
               inr (<["test" := Some env_oracle]> sample_config)
             else inl (errorString "yaml: unmarshal errors"))
    (rt_pem_certs sample_runtime) (rt_open sample_runtime)
    (rt_ping sample_runtime).

(** Case analysis on everything the two halves of [GetConnection] ask the
    outside world. *)
Ltac connection_cases env rt :=
  unfold tls_step, open_step in *;
  destruct (bool_decide (Dialect env = "mysql") && isTlsEnabled env)
    eqn:Hguard;
  [ destruct (rt_files rt (os.getenv rt "MYSQL_CA_CERT_FILE"))
      as [cause|pem] eqn:Hfile;
    [ | destruct (bool_decide (rt_pem_certs rt pem = [])) eqn:Hcerts ]
  | ];
  simp_run;
  try (destruct (rt_open rt _ (Dialect env) (DataSource env))
         as [cause|] eqn:Hopen;
       simp_run;
       [ | destruct (rt_ping rt _ (sql.mkDB (Dialect env) (DataSource env)))
             as [cause|] eqn:Hping;
           simp_run;
           [ | destruct (bool_decide (is_Some (dialects !! Dialect env)))
                 eqn:Hknown;
               simp_run ] ]).

Ltac not_in_calls Hin :=
  repeat (apply elem_of_cons in Hin as [Hin|Hin]; [discriminate Hin|]);
  by apply elem_of_nil in Hin.

(** * Properties *)

(** ** Byte strings *)

Section StringFacts.


Lemma app_cons (c : ascii) (a s : string) :
  String c a +:+ s = String c (a +:+ s).
Proof. reflexivity. Qed.


Lemma HasPrefix_spec (s p : string) :
  strings.HasPrefix s p = true ↔ ∃ post, s = p +:+ post.
Proof.
  revert s. induction p as [|x p IH]; intros s.
  - split; [intros _; by exists s | by destruct s].
  - destruct s as [|c s]; simpl.
    + split; [done | intros [post Hpost]; discriminate].
    + case_decide as Hc.
      * subst c. rewrite IH. split.
        -- intros [post ->]. by exists post.
        -- intros [post Hpost]. rewrite app_cons in Hpost.
           exists post. congruence.
      * split; [done|]. intros [post Hpost]. rewrite app_cons in Hpost.
        congruence.
Qed.

Lemma Contains_spec (s sub : string) :
  strings.Contains s sub = true ↔ ∃ pre post, s = pre +:+ sub +:+ post.
Proof.
  induction s as [|c s IH].
  - cbn [strings.Contains]. rewrite orb_false_r, HasPrefix_spec. split.
    + intros [post Hpost]. by exists "", post.
    + intros [pre [post Hs]]. destruct pre; [by exists post|discriminate].
  - cbn [strings.Contains]. rewrite orb_true_iff, HasPrefix_spec, IH. split.
    + intros [[post Hpost]|[pre [post Hs]]].
      * by exists "", post.
      * exists (String c pre), post. rewrite app_cons. by rewrite Hs.
    + intros [pre [post Hs]]. destruct pre as [|x pre].
      * left. by exists post.
      * right. rewrite app_cons in Hs. exists pre, post. congruence.
Qed.

Lemma Contains_suffix (a b : string) : strings.Contains (a +:+ b) b = true.
Proof.
  apply Contains_spec. exists a, "". f_equal.
  induction b as [|c b IH]; [reflexivity|]. rewrite app_cons. by rewrite <- IH.
Qed.

End StringFacts.

(** ** [os.Expand] against the specification's reading of placeholders *)

Section ExpandFacts.

Variable mapping : string → string.



Lemma expand_from_lit (text s : string) :
  all_bytes (λ c, negb (bool_decide (c = "$"%char))) text = true →
  os.expand_from mapping 0 (text +:+ s)
  = text +:+ os.expand_from mapping 0 s.
Proof.
  induction text as [|c text IH]; [reflexivity|].
  cbn [all_bytes]. rewrite andb_true_iff, negb_true_iff.
  intros [Hc Htext]. rewrite !app_cons. cbn [os.expand_from].
  rewrite Hc. cbn [andb]. by rewrite IH.
Qed.









End ExpandFacts.

(** ** The resolver *)

Section Resolver.

Variable rt : runtime.
Variable st : state.

Lemma ReadConfig_Ok (file : string)
    (config : gmap string (option Environment)) :
  rt_files rt (ConfigFile st) = inr file →
  rt_yaml rt file = inr config →
  ReadConfig rt st = mkOutcome (Ok config) st [ev_ReadFile (ConfigFile st)].
Proof. intros Hfile Hyaml. run_config. by rewrite Hfile, Hyaml. Qed.

Lemma GetEnvironment_unfold :
  GetEnvironment rt st =
  match res (ReadConfig rt st) with
  | Fail err => mkOutcome (Fail err) st [ev_ReadFile (ConfigFile st)]
  | Ok config =>
      match map_index config (ConfigEnvironment st) with
      | None =>
          mkOutcome
            (Fail (errors.New ("No environment: " +:+ ConfigEnvironment st)))
            st [ev_ReadFile (ConfigFile st)]
      | Some env =>
          if bool_decide (Dialect env = "") then
            mkOutcome (Fail (errors.New "No dialect specified")) st
              [ev_ReadFile (ConfigFile st)]
          else if bool_decide (DataSource env = "") then
            mkOutcome (Fail (errors.New "No data source specified")) st
              [ev_ReadFile (ConfigFile st)]
          else
            mkOutcome (Ok (resolved rt env))
              (mkState (ConfigFile st) (ConfigEnvironment st)
                 (settings_after st env) (tlsConfigRegistry st))
              (calls_after st env)
      end
  end.
Proof.
  run_config. destruct (rt_files rt (ConfigFile st)) as [err|file]; [done|].
  destruct (rt_yaml rt file) as [err|config]; [done|]. simp_run.
  destruct (map_index config (ConfigEnvironment st)) as [env|]; [|done].
  case_bool_decide as Hdialect; [done|].
  case_bool_decide as Hsource; [done|].
  unfold resolved, settings_after, calls_after.
  destruct env as [d ds dir tn sn iu]. cbn in *.
  by destruct dir, tn, sn.
Qed.

Lemma GetEnvironment_entry (file : string)
    (config : gmap string (option Environment)) :
  rt_files rt (ConfigFile st) = inr file →
  rt_yaml rt file = inr config →
  GetEnvironment rt st =
  match map_index config (ConfigEnvironment st) with
  | None =>
      mkOutcome
        (Fail (errors.New ("No environment: " +:+ ConfigEnvironment st)))
        st [ev_ReadFile (ConfigFile st)]
  | Some env =>
      if bool_decide (Dialect env = "") then
        mkOutcome (Fail (errors.New "No dialect specified")) st
          [ev_ReadFile (ConfigFile st)]
      else if bool_decide (DataSource env = "") then
        mkOutcome (Fail (errors.New "No data source specified")) st
          [ev_ReadFile (ConfigFile st)]
      else
        mkOutcome (Ok (resolved rt env))
          (mkState (ConfigFile st) (ConfigEnvironment st)
             (settings_after st env) (tlsConfigRegistry st))
          (calls_after st env)
  end.
Proof.
  intros Hfile Hyaml.
  by rewrite GetEnvironment_unfold, (ReadConfig_Ok file config).
Qed.

Lemma GetEnvironment_Fail_inv (err : error) :
  res (GetEnvironment rt st) = Fail err →
  GetEnvironment rt st = mkOutcome (Fail err) st [ev_ReadFile (ConfigFile st)].
Proof.
  rewrite GetEnvironment_unfold.
  destruct (res (ReadConfig rt st)) as [config|err0]; [|by intros [= ->]].
  destruct (map_index config (ConfigEnvironment st)) as [env|];
    [|by intros [= <-]].
  case_bool_decide; [by intros [= <-]|].
  case_bool_decide; [by intros [= <-]|done].
Qed.

Lemma GetEnvironment_Ok_inv (env : Environment) :
  res (GetEnvironment rt st) = Ok env →
  ∃ env0,
    env = resolved rt env0
    ∧ GetEnvironment rt st =
      mkOutcome (Ok env)
        (mkState (ConfigFile st) (ConfigEnvironment st)
           (settings_after st env0) (tlsConfigRegistry st))
        (calls_after st env0).
Proof.
  rewrite GetEnvironment_unfold.
  destruct (res (ReadConfig rt st)) as [config|err0]; [|done].
  destruct (map_index config (ConfigEnvironment st)) as [env0|]; [|done].
  case_bool_decide; [done|]. case_bool_decide; [done|].
  cbn [res]. intros [= <-]. by exists env0.
Qed.

Lemma elem_of_calls_after (env : Environment) (ev : event) :
  ev ∈ calls_after st env ↔
  ev = ev_ReadFile (ConfigFile st)
  ∨ (ev = ev_SetTable (TableName env) ∧ TableName env ≠ "")
  ∨ (ev = ev_SetSchema (SchemaName env) ∧ SchemaName env ≠ "")
  ∨ ev = ev_SetIgnoreUnknown (IgnoreUnknown env).
Proof.
  unfold calls_after. rewrite !elem_of_app, !list_elem_of_singleton.
  case_bool_decide as Htable; case_bool_decide as Hschema;
    rewrite ?elem_of_nil, ?list_elem_of_singleton; tauto.
Qed.

End Resolver.

(** ** What the resolver returns *)

Section ResolverClaims.

Variable rt : runtime.
Variable st : state.

(** C7: when the selected name is not a key of the parsed configuration,
    resolution fails and the error message contains that name (it is the
    text "No environment: " followed by the name). *)
Theorem GetEnvironment_unknown_name (file : string)
    (config : gmap string (option Environment)) :
  rt_files rt (ConfigFile st) = inr file →
  rt_yaml rt file = inr config →
  config !! ConfigEnvironment st = None →
  ∃ err, res (GetEnvironment rt st) = Fail err
         ∧ Error err = "No environment: " +:+ ConfigEnvironment st
         ∧ strings.Contains (Error err) (ConfigEnvironment st) = true.
Proof.
  intros Hfile Hyaml Hkey.
  rewrite (GetEnvironment_entry rt st file config) by assumption.
  unfold map_index. rewrite Hkey. cbn [default from_option id res].
  eexists. split; [reflexivity|]. split; [reflexivity|].
  apply Contains_suffix.
Qed.

(** C9: when the selected name is a key mapped to a nil descriptor,
    resolution fails with the "No environment" error, exactly as it does in
    any run where the key is missing, and not with the missing-dialect
    error. *)
Theorem GetEnvironment_nil_entry (file : string)
    (config : gmap string (option Environment)) :
  rt_files rt (ConfigFile st) = inr file →
  rt_yaml rt file = inr config →
  config !! ConfigEnvironment st = Some None →
  res (GetEnvironment rt st)
  = Fail (errors.New ("No environment: " +:+ ConfigEnvironment st))
  ∧ res (GetEnvironment rt st)
    ≠ Fail (A := Environment) (errors.New "No dialect specified")
  ∧ ∀ rt' file' config',
      rt_files rt' (ConfigFile st) = inr file' →
      rt_yaml rt' file' = inr config' →
      config' !! ConfigEnvironment st = None →
      res (GetEnvironment rt' st) = res (GetEnvironment rt st).
Proof.
  intros Hfile Hyaml Hkey.
  rewrite (GetEnvironment_entry rt st file config) by assumption.
  unfold map_index. rewrite Hkey. cbn [default from_option id res].
  split; [reflexivity|]. split; [discriminate|].
  intros rt' file' config' Hfile' Hyaml' Hkey'.
  rewrite (GetEnvironment_entry rt' st file' config') by assumption.
  unfold map_index. by rewrite Hkey'.
Qed.

(** C2: for a configuration that holds a descriptor under the selected
    name, an empty dialect gives the error "No dialect specified", also when
    the data source is empty as well; a non-empty dialect with an empty data
    source gives "No data source specified". *)
Theorem GetEnvironment_missing_fields (file : string)
    (config : gmap string (option Environment)) (env : Environment) :
  rt_files rt (ConfigFile st) = inr file →
  rt_yaml rt file = inr config →
  config !! ConfigEnvironment st = Some (Some env) →
  (Dialect env = "" →
   res (GetEnvironment rt st) = Fail (errors.New "No dialect specified"))
  ∧ (Dialect env = "" → DataSource env = "" →
     res (GetEnvironment rt st) = Fail (errors.New "No dialect specified"))
  ∧ (Dialect env ≠ "" → DataSource env = "" →
     res (GetEnvironment rt st)
     = Fail (errors.New "No data source specified")).
Proof.
  intros Hfile Hyaml Hkey.
  rewrite (GetEnvironment_entry rt st file config) by assumption.
  unfold map_index. rewrite Hkey. cbn [default from_option id].
  repeat split.
  - intros Hd. by rewrite bool_decide_eq_true_2.
  - intros Hd _. by rewrite bool_decide_eq_true_2.
  - intros Hd Hs. rewrite bool_decide_eq_false_2 by assumption.
    by rewrite bool_decide_eq_true_2.
Qed.


(** C6: after a successful resolution returning [env], [SetTable] has been
    called exactly when the table name of [env] is non-empty (with that
    name), [SetSchema] exactly when the schema name is non-empty (with that
    name), and [SetIgnoreUnknown] has been called with the flag of [env],
    whatever its value.  The engine settings end up accordingly. *)
Theorem GetEnvironment_engine_settings (env : Environment) :
  res (GetEnvironment rt st) = Ok env →
  (∀ name, ev_SetTable name ∈ calls (GetEnvironment rt st)
           ↔ name = TableName env ∧ TableName env ≠ "")
  ∧ (∀ name, ev_SetSchema name ∈ calls (GetEnvironment rt st)
             ↔ name = SchemaName env ∧ SchemaName env ≠ "")
  ∧ (∀ v, ev_SetIgnoreUnknown v ∈ calls (GetEnvironment rt st)
          ↔ v = IgnoreUnknown env)
  ∧ migSet (final (GetEnvironment rt st))
    = mkMigrationSet
        (if bool_decide (TableName env = "") then mig_TableName (migSet st)
         else TableName env)
        (if bool_decide (SchemaName env = "") then mig_SchemaName (migSet st)
         else SchemaName env)
        (IgnoreUnknown env).
Proof.
  intros Hres. apply GetEnvironment_Ok_inv in Hres as (env0 & -> & ->).
  cbn [res final calls migSet resolved TableName SchemaName IgnoreUnknown].
  split; [|split; [|split; [|reflexivity]]].
  - intros name. rewrite elem_of_calls_after. intuition congruence.
  - intros name. rewrite elem_of_calls_after. intuition congruence.
  - intros v. rewrite elem_of_calls_after. intuition congruence.
Qed.

(** C8: whenever resolution returns an error, the process state it leaves
    is the one it started from, so the table name, the schema name and the
    ignore-unknown flag of the engine are untouched, and the only call made
    is the read of the configuration file: no setter was called. *)
Theorem GetEnvironment_error_leaves_settings (err : error) :
  res (GetEnvironment rt st) = Fail err →
  final (GetEnvironment rt st) = st
  ∧ migSet (final (GetEnvironment rt st)) = migSet st
  ∧ calls (GetEnvironment rt st) = [ev_ReadFile (ConfigFile st)]
  ∧ (∀ name, ev_SetTable name ∉ calls (GetEnvironment rt st))
  ∧ (∀ name, ev_SetSchema name ∉ calls (GetEnvironment rt st))
  ∧ (∀ v, ev_SetIgnoreUnknown v ∉ calls (GetEnvironment rt st)).
Proof.
  intros Hres. rewrite (GetEnvironment_Fail_inv rt st err Hres).
  cbn [final calls]. repeat split; try done.
  all: intros x Hin; apply list_elem_of_singleton in Hin; discriminate.
Qed.

End ResolverClaims.

(** ** The connection opener *)

Section Opener.

Variable rt : runtime.
Variable st : state.

Lemma RegisterTlsConfig_unfold (pemPath key serverName : string) :
  RegisterTlsConfig pemPath key serverName rt st =
  match rt_files rt pemPath with
  | inl err =>
      mkOutcome (Fail err) st
        [ev_RegisterTlsConfig pemPath key serverName; ev_ReadFile pemPath]
  | inr pem =>
      if bool_decide (rt_pem_certs rt pem = []) then
        mkOutcome (Fail (fmt.Errorf "cannot append certs from PEM")) st
          [ev_RegisterTlsConfig pemPath key serverName; ev_ReadFile pemPath]
      else
        mkOutcome (Ok tt)
          (mkState (ConfigFile st) (ConfigEnvironment st) (migSet st)
             (<[key := tls.mkConfig (rt_pem_certs rt pem) serverName]>
                (tlsConfigRegistry st)))
          [ev_RegisterTlsConfig pemPath key serverName; ev_ReadFile pemPath;
           ev_mysql_RegisterTLSConfig key
             (tls.mkConfig (rt_pem_certs rt pem) serverName)]
  end.
Proof.
  run_connection. destruct (rt_files rt pemPath) as [err|pem]; [done|].
  by destruct (bool_decide (rt_pem_certs rt pem = [])).
Qed.

Lemma GetConnection_plain (env : Environment) :
  bool_decide (Dialect env = "mysql") && isTlsEnabled env = false →
  GetConnection env rt st =
  match rt_open rt (tlsConfigRegistry st) (Dialect env) (DataSource env) with
  | Some err =>
      mkOutcome (Fail (fmt.Errorf_w "cannot connect to database: " err)) st
        [ev_sql_Open (Dialect env) (DataSource env)]
  | None =>
      let db := sql.mkDB (Dialect env) (DataSource env) in
      match rt_ping rt (tlsConfigRegistry st) db with
      | Some err =>
          mkOutcome (Fail (fmt.Errorf_w "cannot ping database: " err)) st
            [ev_sql_Open (Dialect env) (DataSource env); ev_Ping db]
      | None =>
          mkOutcome
            (if bool_decide (is_Some (dialects !! Dialect env)) then
               Ok (db, Dialect env)
             else Fail (fmt.Errorf_s "unsupported dialect: " (Dialect env)))
            st [ev_sql_Open (Dialect env) (DataSource env); ev_Ping db]
      end
  end.
Proof.
  intros Hguard. unfold GetConnection. rewrite Hguard. run_connection.
  destruct (rt_open rt (tlsConfigRegistry st) (Dialect env) (DataSource env))
    as [err|]; [done|]. simp_run.
  destruct (rt_ping rt (tlsConfigRegistry st)
              (sql.mkDB (Dialect env) (DataSource env))) as [err|]; [done|].
  simp_run. by destruct (bool_decide (is_Some (dialects !! Dialect env))).
Qed.

Lemma GetConnection_tls_fail (env : Environment) (err : error) :
  bool_decide (Dialect env = "mysql") && isTlsEnabled env = true →
  res (RegisterTlsConfig (os.getenv rt "MYSQL_CA_CERT_FILE") "custom"
         (os.getenv rt "MYSQL_HOST") rt st) = Fail err →
  GetConnection env rt st =
  mkOutcome (Fail (fmt.Errorf_w "cannot register TLS config: " err)) st
    [ev_RegisterTlsConfig (os.getenv rt "MYSQL_CA_CERT_FILE") "custom"
       (os.getenv rt "MYSQL_HOST");
     ev_ReadFile (os.getenv rt "MYSQL_CA_CERT_FILE")].
Proof.
  intros Hguard Hres. rewrite RegisterTlsConfig_unfold in Hres.
  unfold GetConnection. rewrite Hguard. run_connection.
  destruct (rt_files rt (os.getenv rt "MYSQL_CA_CERT_FILE")) as [err0|pem].
  - by injection Hres as ->.
  - simp_run. destruct (bool_decide (rt_pem_certs rt pem = [])); [|done].
    by injection Hres as <-.
Qed.

Lemma GetConnection_tls_first (env : Environment) :
  bool_decide (Dialect env = "mysql") && isTlsEnabled env = true →
  ∃ later,
    calls (GetConnection env rt st) =
    ev_RegisterTlsConfig (os.getenv rt "MYSQL_CA_CERT_FILE") "custom"
      (os.getenv rt "MYSQL_HOST") :: later.
Proof.
  intros Hguard. unfold GetConnection. rewrite Hguard. run_connection.
  destruct (rt_files rt (os.getenv rt "MYSQL_CA_CERT_FILE")) as [err0|pem];
    [by eexists|]. simp_run.
  destruct (bool_decide (rt_pem_certs rt pem = [])); [by eexists|]. simp_run.
  destruct (rt_open rt _ (Dialect env) (DataSource env)); [by eexists|].
  simp_run. destruct (rt_ping rt _ _); [by eexists|]. simp_run.
  destruct (bool_decide (is_Some (dialects !! Dialect env))); by eexists.
Qed.

Lemma GetConnection_Ok_inv (env : Environment) (db : sql.DB) (d : string) :
  res (GetConnection env rt st) = Ok (db, d) →
  d = Dialect env ∧ is_Some (dialects !! Dialect env).
Proof.
  unfold GetConnection.
  destruct (bool_decide (Dialect env = "mysql") && isTlsEnabled env);
    run_connection.
  - destruct (rt_files rt (os.getenv rt "MYSQL_CA_CERT_FILE")) as [err0|pem];
      [done|]. simp_run.
    destruct (bool_decide (rt_pem_certs rt pem = [])); [done|]. simp_run.
    destruct (rt_open rt _ (Dialect env) (DataSource env)); [done|].
    simp_run. destruct (rt_ping rt _ _); [done|]. simp_run.
    case_bool_decide as Hknown; [|done]. by intros [= _ <-].
  - destruct (rt_open rt _ (Dialect env) (DataSource env)); [done|].
    simp_run. destruct (rt_ping rt _ _); [done|]. simp_run.
    case_bool_decide as Hknown; [|done]. by intros [= _ <-].
Qed.

End Opener.

Lemma dialects_lookup (d : string) :
  is_Some (dialects !! d) ↔ d = "sqlite3" ∨ d = "postgres" ∨ d = "mysql".
Proof.
  unfold dialects. rewrite !lookup_insert_is_Some, lookup_empty.
  split.
  - intros [->|[_ [->|[_ [->|[_ Hnone]]]]]]; auto.
    by destruct Hnone.
  - intros [-> | [-> | ->]].
    + by left.
    + right. split; [done|]. by left.
    + right. split; [done|]. right. split; [done|]. by left.
Qed.

(** ** What the connection opener does *)

Section OpenerClaims.

Variable rt : runtime.
Variable st : state.

(** C1: [GetConnection] calls [RegisterTlsConfig] if and only if the dialect
    of the descriptor is "mysql" and its data source has "tls=custom" as a
    substring. *)
Theorem GetConnection_tls_registration_iff (env : Environment) :
  (∃ pemPath key serverName,
     ev_RegisterTlsConfig pemPath key serverName
     ∈ calls (GetConnection env rt st))
  ↔ Dialect env = "mysql"
    ∧ ∃ pre post, DataSource env = pre +:+ "tls=custom" +:+ post.
Proof.
  rewrite <- Contains_spec. fold (isTlsEnabled env).
  destruct (bool_decide (Dialect env = "mysql") && isTlsEnabled env)
    eqn:Hguard.
  - apply andb_true_iff in Hguard as Hboth. destruct Hboth as [Hd Htls].
    apply bool_decide_eq_true in Hd. split; [done|]. intros _.
    destruct (GetConnection_tls_first rt st env Hguard) as [later ->].
    eexists _, _, _. apply list_elem_of_here.
  - split.
    + intros (pemPath & key & serverName & Hin).
      rewrite (GetConnection_plain rt st env Hguard) in Hin.
      destruct (rt_open rt _ (Dialect env) (DataSource env));
        [|cbv zeta in Hin; destruct (rt_ping rt _ _)];
        cbn [calls] in Hin;
        repeat (apply elem_of_cons in Hin as [Hin|Hin]; [discriminate|]);
        by apply elem_of_nil in Hin.
    + intros [Hd Htls]. rewrite Htls, andb_true_r in Hguard.
      by apply bool_decide_eq_false in Hguard.
Qed.

(** C4, as the code has it: for a descriptor whose dialect is none of sqlite3,
    postgres and mysql, [GetConnection] fails.  The error is the failure of
    [sql.Open] wrapped in "cannot connect to database: " when the open call
    fails, the failure of [Ping] wrapped in "cannot ping database: " when the
    probe fails, and "unsupported dialect: " followed by the dialect only
    when both went through. *)
Theorem GetConnection_unsupported_dialect (env : Environment) :
  Dialect env ≠ "sqlite3" →
  Dialect env ≠ "postgres" →
  Dialect env ≠ "mysql" →
  ∃ err,
    res (GetConnection env rt st) = Fail err
    ∧ err =
      match rt_open rt (tlsConfigRegistry st) (Dialect env) (DataSource env)
      with
      | Some cause => fmt.Errorf_w "cannot connect to database: " cause
      | None =>
          match rt_ping rt (tlsConfigRegistry st)
                  (sql.mkDB (Dialect env) (DataSource env)) with
          | Some cause => fmt.Errorf_w "cannot ping database: " cause
          | None => fmt.Errorf_s "unsupported dialect: " (Dialect env)
          end
      end.
Proof.
  intros Hsqlite Hpostgres Hmysql.
  rewrite GetConnection_plain
    by (by rewrite (bool_decide_eq_false_2 (Dialect env = "mysql"))).
  destruct (rt_open rt _ (Dialect env) (DataSource env)) as [cause|];
    [by eexists|].
  cbv zeta. destruct (rt_ping rt _ _) as [cause|]; [by eexists|].
  cbn [res]. rewrite bool_decide_eq_false_2; [by eexists|].
  rewrite dialects_lookup. tauto.
Qed.

(** C5: for a mysql descriptor whose data source contains "tls=custom",
    when the file named by MYSQL_CA_CERT_FILE cannot be read, or no
    certificate of its content can be added to the pool, [RegisterTlsConfig]
    returns an error, [GetConnection] returns that error wrapped in
    "cannot register TLS config: ", [sql.Open] is never called, and the
    process state is left as it was. *)
Theorem GetConnection_tls_failure (env : Environment) :
  Dialect env = "mysql" →
  strings.Contains (DataSource env) "tls=custom" = true →
  (∃ cause, rt_files rt (os.getenv rt "MYSQL_CA_CERT_FILE") = inl cause)
  ∨ (∃ pem, rt_files rt (os.getenv rt "MYSQL_CA_CERT_FILE") = inr pem
            ∧ rt_pem_certs rt pem = []) →
  ∃ err,
    res (RegisterTlsConfig (os.getenv rt "MYSQL_CA_CERT_FILE") "custom"
           (os.getenv rt "MYSQL_HOST") rt st) = Fail err
    ∧ res (GetConnection env rt st)
      = Fail (wrapError "cannot register TLS config: " err)
    ∧ (∀ driverName dataSourceName,
         ev_sql_Open driverName dataSourceName
         ∉ calls (GetConnection env rt st))
    ∧ final (GetConnection env rt st) = st.
Proof.
  intros Hd Htls Hbad.
  assert (Hguard :
    bool_decide (Dialect env = "mysql") && isTlsEnabled env = true).
  { unfold isTlsEnabled. by rewrite Htls, bool_decide_eq_true_2. }
  assert (Hreg : ∃ err,
    res (RegisterTlsConfig (os.getenv rt "MYSQL_CA_CERT_FILE") "custom"
           (os.getenv rt "MYSQL_HOST") rt st) = Fail err).
  { rewrite RegisterTlsConfig_unfold.
    destruct Hbad as [[cause ->]|(pem & -> & ->)]; by eexists. }
  destruct Hreg as [err Hreg]. exists err. split; [assumption|].
  rewrite (GetConnection_tls_fail rt st env err Hguard Hreg).
  cbn [res final calls]. repeat split.
  intros driverName dataSourceName Hin.
  repeat (apply elem_of_cons in Hin as [Hin|Hin]; [discriminate|]).
  by apply elem_of_nil in Hin.
Qed.

(** C10: when [GetConnection] succeeds, the dialect it returns is the one of
    the descriptor it was given, and it is a key of [dialects], that is one
    of sqlite3, postgres and mysql. *)
Theorem GetConnection_returns_known_dialect (env : Environment)
    (db : sql.DB) (d : string) :
  res (GetConnection env rt st) = Ok (db, d) →
  d = Dialect env
  ∧ is_Some (dialects !! d)
  ∧ (d = "sqlite3" ∨ d = "postgres" ∨ d = "mysql").
Proof.
  intros Hres. apply GetConnection_Ok_inv in Hres as [-> Hknown].
  split; [reflexivity|]. split; [assumption|]. by apply dialects_lookup.
Qed.

End OpenerClaims.

(** ** The theorems at work on the sample process *)

(** The first scenario of the specification: a postgres entry with a table
    name and no directory. *)
Example scenario_production :
  GetEnvironment sample_runtime (sample_state "production") =
  mkOutcome
    (Ok (mkEnvironment "postgres" "postgres://u:p@host/db" "migrations"
           "custom_migrations" "" false))
    (mkState "dbconfig.yml" "production"
       (mkMigrationSet "custom_migrations" "" false) ∅)
    [ev_ReadFile "dbconfig.yml"; ev_SetTable "custom_migrations";
     ev_SetIgnoreUnknown false].
Proof. vm_compute. reflexivity. Qed.

(** The second scenario: a data source that is one bare placeholder. *)
Example scenario_expand :
  os.Expand "$DB_URL" (os.getenv sample_runtime) = "sqlite:///tmp/x.db".
Proof. vm_compute. reflexivity. Qed.

(** How [os.Expand] treats text that is not a well-formed placeholder. *)
Example expand_corner_cases :
  let expand s := os.Expand s (os.getenv sample_runtime) in
  expand "a$" = "a$"
  ∧ expand "$ x" = "$ x"
  ∧ expand "${" = ""
  ∧ expand "${}x" = "x"
  ∧ expand "$1abc" = "abc"
  ∧ expand "$UNSET/y" = "/y".
Proof. vm_compute. repeat split. Qed.

Lemma GetConnection_tls_registration_iff_witness :
  ∃ pemPath key serverName,
    ev_RegisterTlsConfig pemPath key serverName
    ∈ calls (GetConnection env_aurora sample_runtime (sample_state "aurora")).
Proof.
  apply (GetConnection_tls_registration_iff sample_runtime
           (sample_state "aurora") env_aurora).
  split; [reflexivity|].
  exists "u:p@tcp(${MYSQL_HOST}:3306)/db?", "". reflexivity.
Defined.

Lemma GetEnvironment_missing_fields_witness :
  rt_files sample_runtime (ConfigFile (sample_state "nodialect"))
  = inr "<yaml>"
  ∧ rt_yaml sample_runtime "<yaml>" = inr sample_config
  ∧ sample_config !! ConfigEnvironment (sample_state "nodialect")
    = Some (Some env_nodialect)
  ∧ res (GetEnvironment sample_runtime (sample_state "nodialect"))
    = Fail (errors.New "No dialect specified").
Proof.
  do 3 (split; [vm_compute; reflexivity|]).
  apply (GetEnvironment_missing_fields sample_runtime
           (sample_state "nodialect") "<yaml>" sample_config env_nodialect);
    vm_compute; reflexivity.
Defined.


Lemma GetConnection_unsupported_dialect_witness :
  Dialect env_oracle ≠ "sqlite3"
  ∧ Dialect env_oracle ≠ "postgres"
  ∧ Dialect env_oracle ≠ "mysql"
  ∧ ∃ err,
      res (GetConnection env_oracle sample_runtime (sample_state "oracle"))
      = Fail err
      ∧ err =
        fmt.Errorf_w "cannot connect to database: "
          (errorString
             ("sql: unknown driver " +:+ dquote +:+ "oracle" +:+ dquote
              +:+ " (forgotten import?)")).
Proof.
  repeat (split; [simpl; discriminate|]).
  apply (GetConnection_unsupported_dialect sample_runtime
           (sample_state "oracle") env_oracle);
    simpl; discriminate.
Defined.

(** C4 as stated fails: with the three drivers config.go links, [sql.Open]
    does not know the driver "oracle", so [GetConnection] stops at the open
    call with the error "cannot connect to database: ..." and the dialect
    check is never reached. *)
Lemma GetConnection_unsupported_dialect_counterexample :
  let o := GetConnection env_oracle sample_runtime (sample_state "oracle") in
  ¬ (Dialect env_oracle = "sqlite3" ∨ Dialect env_oracle = "postgres"
     ∨ Dialect env_oracle = "mysql")
  ∧ dialects !! Dialect env_oracle = None
  ∧ calls o = [ev_sql_Open "oracle" "u/p@host"]
  ∧ ∃ err,
      res o = Fail err
      ∧ Error err =
        "cannot connect to database: sql: unknown driver " +:+ dquote
        +:+ "oracle" +:+ dquote +:+ " (forgotten import?)"
      ∧ strings.Contains (Error err) "unsupported dialect" = false.
Proof.
  cbv zeta. split; [intros [H|[H|H]]; discriminate H|].
  split; [vm_compute; reflexivity|]. split; [vm_compute; reflexivity|].
  eexists. split; [vm_compute; reflexivity|].
  split; vm_compute; reflexivity.
Qed.

Lemma GetConnection_tls_failure_witness :
  Dialect env_aurora = "mysql"
  ∧ strings.Contains (DataSource env_aurora) "tls=custom" = true
  ∧ rt_files sample_runtime (os.getenv sample_runtime "MYSQL_CA_CERT_FILE")
    = inl (errorString "open /nonexistent/ca.pem: no such file or directory")
  ∧ ∃ err,
      res (RegisterTlsConfig (os.getenv sample_runtime "MYSQL_CA_CERT_FILE")
             "custom" (os.getenv sample_runtime "MYSQL_HOST") sample_runtime
             (sample_state "aurora")) = Fail err
      ∧ res (GetConnection env_aurora sample_runtime (sample_state "aurora"))
        = Fail (wrapError "cannot register TLS config: " err)
      ∧ (∀ driverName dataSourceName,
           ev_sql_Open driverName dataSourceName
           ∉ calls (GetConnection env_aurora sample_runtime
                      (sample_state "aurora")))
      ∧ final (GetConnection env_aurora sample_runtime
                 (sample_state "aurora"))
        = sample_state "aurora".
Proof.
  split; [reflexivity|]. split; [vm_compute; reflexivity|].
  split; [vm_compute; reflexivity|].
  apply (GetConnection_tls_failure sample_runtime (sample_state "aurora")
           env_aurora).
  - reflexivity.
  - vm_compute; reflexivity.
  - left. eexists. vm_compute. reflexivity.
Defined.

Lemma GetEnvironment_engine_settings_witness :
  let o := GetEnvironment sample_runtime (sample_state "production") in
  let env := mkEnvironment "postgres" "postgres://u:p@host/db" "migrations"
               "custom_migrations" "" false in
  res o = Ok env
  ∧ ev_SetTable "custom_migrations" ∈ calls o
  ∧ (∀ name, ev_SetSchema name ∉ calls o)
  ∧ ev_SetIgnoreUnknown false ∈ calls o
  ∧ migSet (final o) = mkMigrationSet "custom_migrations" "" false.
Proof.
  cbv zeta.
  assert (Hres :
    res (GetEnvironment sample_runtime (sample_state "production"))
    = Ok (mkEnvironment "postgres" "postgres://u:p@host/db" "migrations"
            "custom_migrations" "" false)) by (vm_compute; reflexivity).
  split; [assumption|].
  destruct (GetEnvironment_engine_settings sample_runtime
              (sample_state "production") _ Hres)
    as (Htable & Hschema & Hflag & Hset).
  split; [apply Htable; split; [reflexivity|simpl; discriminate]|].
  split; [intros name Hin; apply Hschema in Hin as [_ Hne]; by apply Hne|].
  split; [by apply Hflag|]. apply Hset.
Defined.

Lemma GetEnvironment_unknown_name_witness :
  rt_files sample_runtime (ConfigFile (sample_state "test")) = inr "<yaml>"
  ∧ rt_yaml sample_runtime "<yaml>" = inr sample_config
  ∧ sample_config !! ConfigEnvironment (sample_state "test") = None
  ∧ ∃ err,
      res (GetEnvironment sample_runtime (sample_state "test")) = Fail err
      ∧ Error err = "No environment: test"
      ∧ strings.Contains (Error err) "test" = true.
Proof.
  do 3 (split; [vm_compute; reflexivity|]).
  apply (GetEnvironment_unknown_name sample_runtime (sample_state "test")
           "<yaml>" sample_config);
    vm_compute; reflexivity.
Defined.

Lemma GetEnvironment_error_leaves_settings_witness :
  res (GetEnvironment sample_runtime (sample_state "nosource"))
  = Fail (errors.New "No data source specified")
  ∧ migSet (final (GetEnvironment sample_runtime (sample_state "nosource")))
    = migSet (sample_state "nosource").
Proof.
  assert (Hres :
    res (GetEnvironment sample_runtime (sample_state "nosource"))
    = Fail (errors.New "No data source specified"))
    by (vm_compute; reflexivity).
  split; [assumption|].
  apply (GetEnvironment_error_leaves_settings sample_runtime
           (sample_state "nosource") _ Hres).
Defined.

Lemma GetEnvironment_nil_entry_witness :
  rt_files sample_runtime (ConfigFile (sample_state "staging")) = inr "<yaml>"
  ∧ rt_yaml sample_runtime "<yaml>" = inr sample_config
  ∧ sample_config !! ConfigEnvironment (sample_state "staging") = Some None
  ∧ res (GetEnvironment sample_runtime (sample_state "staging"))
    = Fail (errors.New "No environment: staging").
Proof.
  do 3 (split; [vm_compute; reflexivity|]).
  apply (GetEnvironment_nil_entry sample_runtime (sample_state "staging")
           "<yaml>" sample_config);
    vm_compute; reflexivity.
Defined.

Lemma GetConnection_returns_known_dialect_witness :
  res (GetConnection env_production sample_runtime (sample_state "production"))
  = Ok (sql.mkDB "postgres" "postgres://u:p@host/db", "postgres")
  ∧ "postgres" = Dialect env_production
  ∧ is_Some (dialects !! "postgres").
Proof.
  assert (Hres :
    res (GetConnection env_production sample_runtime
           (sample_state "production"))
    = Ok (sql.mkDB "postgres" "postgres://u:p@host/db", "postgres"))
    by (vm_compute; reflexivity).
  split; [assumption|].
  destruct (GetConnection_returns_known_dialect sample_runtime
              (sample_state "production") env_production _ _ Hres)
    as (Hd & Hknown & _).
  by split.
Defined.

(** * Further properties of config.go *)

(** ** The resolver, beyond the claims *)

Section ResolverMore.

Variable rt : runtime.
Variable st : state.

Lemma ReadConfig_unfold :
  ReadConfig rt st =
  mkOutcome
    match rt_files rt (ConfigFile st) with
    | inl err => Fail err
    | inr file =>
        match rt_yaml rt file with
        | inl err => Fail err
        | inr config => Ok config
        end
    end
    st [ev_ReadFile (ConfigFile st)].
Proof.
  run_config. destruct (rt_files rt (ConfigFile st)) as [err|file]; [done|].
  by destruct (rt_yaml rt file).
Qed.

(** X1: the errors of [GetEnvironment], with their causes.  It fails with
    [err] exactly when reading the file failed with [err], or parsing failed
    with [err] (neither is wrapped), or the selected entry is nil or missing
    and [err] is "No environment: <name>", or the dialect is empty and [err]
    is "No dialect specified", or only the data source is empty and [err] is
    "No data source specified". *)
Theorem GetEnvironment_fails_iff (err : error) :
  res (GetEnvironment rt st) = Fail err ↔
  rt_files rt (ConfigFile st) = inl err
  ∨ (∃ file, rt_files rt (ConfigFile st) = inr file
             ∧ rt_yaml rt file = inl err)
  ∨ (∃ file config,
       rt_files rt (ConfigFile st) = inr file
       ∧ rt_yaml rt file = inr config
       ∧ match map_index config (ConfigEnvironment st) with
         | None =>
             err = errors.New ("No environment: " +:+ ConfigEnvironment st)
         | Some env =>
             (Dialect env = "" ∧ err = errors.New "No dialect specified")
             ∨ (Dialect env ≠ "" ∧ DataSource env = ""
                ∧ err = errors.New "No data source specified")
         end).
Proof.
  rewrite GetEnvironment_unfold, ReadConfig_unfold. cbn [res].
  destruct (rt_files rt (ConfigFile st)) as [err0|file].
  { cbn [res]. split.
    - intros [= ->]. by left.
    - intros [[= ->]|[(file & Hfile & _)|(file & config & Hfile & _)]];
        [reflexivity|discriminate Hfile..]. }
  destruct (rt_yaml rt file) as [err0|config] eqn:Hyaml.
  { cbn [res]. split.
    - intros [= ->]. right. left. by exists file.
    - intros [Hfile|[(file' & [= <-] & Hyaml')
                    |(file' & config & [= <-] & Hyaml' & _)]];
        [discriminate Hfile| |]; congruence. }
  split.
  - intros Hres. right. right. exists file, config.
    split; [reflexivity|]. split; [exact Hyaml|].
    destruct (map_index config (ConfigEnvironment st)) as [env|].
    + case_bool_decide as Hdialect; cbn [res] in Hres;
        [left; split; [done|]; congruence|].
      case_bool_decide as Hsource; cbn [res] in Hres; [|discriminate Hres].
      right. repeat split; [done..|congruence].
    + cbn [res] in Hres. congruence.
  - intros [Hfile|[(file' & [= <-] & Hyaml')
                  |(file' & config' & [= <-] & Hyaml' & Hcase)]];
      [discriminate Hfile|congruence|].
    assert (config' = config) as -> by congruence.
    destruct (map_index config (ConfigEnvironment st)) as [env|].
    + destruct Hcase as [[Hdialect ->]|(Hdialect & Hsource & ->)].
      * by rewrite bool_decide_eq_true_2.
      * rewrite bool_decide_eq_false_2 by done.
        by rewrite bool_decide_eq_true_2.
    + by subst err.
Qed.

(** X2: [GetEnvironment] succeeds exactly when the file can be read and
    parsed and holds, under the selected name, a descriptor whose dialect
    and data source are both non-empty. *)
Theorem GetEnvironment_succeeds_iff :
  (∃ env, res (GetEnvironment rt st) = Ok env) ↔
  ∃ file config env0,
    rt_files rt (ConfigFile st) = inr file
    ∧ rt_yaml rt file = inr config
    ∧ config !! ConfigEnvironment st = Some (Some env0)
    ∧ Dialect env0 ≠ ""
    ∧ DataSource env0 ≠ "".
Proof.
  rewrite GetEnvironment_unfold, ReadConfig_unfold. cbn [res]. split.
  - intros [env Hres].
    destruct (rt_files rt (ConfigFile st)) as [err0|file]; [done|].
    destruct (rt_yaml rt file) as [err0|config] eqn:Hyaml; [done|].
    unfold map_index in Hres.
    destruct (config !! ConfigEnvironment st) as [[env0|]|] eqn:Hkey;
      cbn [default from_option id] in Hres; [|done..].
    case_bool_decide as Hdialect; [done|].
    case_bool_decide as Hsource; [done|].
    by exists file, config, env0.
  - intros (file & config & env0 & -> & -> & Hkey & Hdialect & Hsource).
    unfold map_index. rewrite Hkey. cbn [default from_option id].
    rewrite !bool_decide_eq_false_2 by done. by eexists.
Qed.

(** X3: a descriptor that [GetEnvironment] returns has a non-empty dialect
    and a non-empty migrations directory. *)
Theorem GetEnvironment_result_nonempty (env : Environment) :
  res (GetEnvironment rt st) = Ok env →
  Dialect env ≠ "" ∧ Dir env ≠ "".
Proof.
  rewrite GetEnvironment_unfold.
  destruct (res (ReadConfig rt st)) as [config|err0]; [|done].
  destruct (map_index config (ConfigEnvironment st)) as [env0|]; [|done].
  case_bool_decide as Hdialect; [done|].
  case_bool_decide as Hsource; [done|].
  cbn [res]. intros [= <-]. cbn [resolved Dialect Dir].
  split; [assumption|]. by case_bool_decide.
Qed.

Lemma GetEnvironment_Ok_entry (env : Environment) :
  res (GetEnvironment rt st) = Ok env →
  ∃ file config env0,
    rt_files rt (ConfigFile st) = inr file
    ∧ rt_yaml rt file = inr config
    ∧ map_index config (ConfigEnvironment st) = Some env0
    ∧ Dialect env0 ≠ ""
    ∧ DataSource env0 ≠ ""
    ∧ env = resolved rt env0.
Proof.
  rewrite GetEnvironment_unfold, ReadConfig_unfold. cbn [res].
  destruct (rt_files rt (ConfigFile st)) as [err0|file]; [done|].
  destruct (rt_yaml rt file) as [err0|config] eqn:Hyaml; [done|].
  destruct (map_index config (ConfigEnvironment st)) as [env0|] eqn:Hkey;
    [|done].
  case_bool_decide as Hdialect; [done|].
  case_bool_decide as Hsource; [done|].
  cbn [res]. intros [= <-]. by exists file, config, env0.
Qed.

Lemma str_app_nil_r (s : string) : s +:+ "" = s.
Proof.
  induction s as [|c s IH]; [reflexivity|]. rewrite app_cons. by rewrite IH.
Qed.


(** X5: a data source without a dollar sign comes back exactly as it was
    configured. *)
Theorem GetEnvironment_plain_source (file : string)
    (config : gmap string (option Environment)) (env : Environment) :
  rt_files rt (ConfigFile st) = inr file →
  rt_yaml rt file = inr config →
  config !! ConfigEnvironment st = Some (Some env) →
  Dialect env ≠ "" →
  DataSource env ≠ "" →
  all_bytes (λ c, negb (bool_decide (c = "$"%char))) (DataSource env) = true →
  ∃ env',
    res (GetEnvironment rt st) = Ok env'
    ∧ DataSource env' = DataSource env.
Proof.
  intros Hfile Hyaml Hkey Hdialect Hsource Hplain.
  rewrite (GetEnvironment_entry rt st file config) by assumption.
  unfold map_index. rewrite Hkey. cbn [default from_option id].
  rewrite !bool_decide_eq_false_2 by assumption.
  exists (resolved rt env). split; [reflexivity|].
  cbn [resolved DataSource]. unfold os.Expand.
  rewrite <- (str_app_nil_r (DataSource env)) at 1.
  rewrite expand_from_lit by assumption. apply str_app_nil_r.
Qed.

(** X6: resolving again after a successful resolution changes nothing: the
    second run returns the same descriptor, makes the same calls and leaves
    the state the first run left. *)
Theorem GetEnvironment_twice (env : Environment) :
  res (GetEnvironment rt st) = Ok env →
  GetEnvironment rt (final (GetEnvironment rt st)) = GetEnvironment rt st.
Proof.
  intros Hres.
  apply GetEnvironment_Ok_entry in Hres
    as (file & config & env0 & Hfile & Hyaml & Hkey & Hdialect & Hsource & ->).
  rewrite (GetEnvironment_entry rt st file config) by assumption.
  rewrite Hkey, !bool_decide_eq_false_2 by assumption. cbn [final].
  rewrite (GetEnvironment_entry rt _ file config) by assumption.
  cbn [ConfigFile ConfigEnvironment tlsConfigRegistry].
  rewrite Hkey, !bool_decide_eq_false_2 by assumption.
  unfold settings_after, calls_after.
  cbn [ConfigFile ConfigEnvironment migSet mig_TableName mig_SchemaName].
  by do 2 case_bool_decide.
Qed.


End ResolverMore.

(** X8: the outcome of [GetEnvironment] depends on the configuration only
    through the entry under the selected name: two processes with the same
    environment variables whose configurations agree on that entry resolve
    alike, whatever else the configurations hold. *)
Theorem GetEnvironment_selected_entry_only (rt rt' : runtime) (st : state)
    (file file' : string) (config config' : gmap string (option Environment)) :
  rt_files rt (ConfigFile st) = inr file →
  rt_yaml rt file = inr config →
  rt_files rt' (ConfigFile st) = inr file' →
  rt_yaml rt' file' = inr config' →
  rt_environ rt' = rt_environ rt →
  config' !! ConfigEnvironment st = config !! ConfigEnvironment st →
  GetEnvironment rt' st = GetEnvironment rt st.
Proof.
  intros Hfile Hyaml Hfile' Hyaml' Henviron Hkey.
  rewrite (GetEnvironment_entry rt st file config) by assumption.
  rewrite (GetEnvironment_entry rt' st file' config') by assumption.
  unfold map_index. rewrite Hkey.
  destruct (default None (config !! ConfigEnvironment st)) as [env|];
    [|reflexivity].
  do 2 (case_bool_decide; [reflexivity|]).
  unfold resolved, os.getenv. by rewrite Henviron.
Qed.

(** ** The connection opener, beyond the claims *)

Section OpenerMore.

Variable rt : runtime.
Variable st : state.

Lemma GetConnection_steps (env : Environment) :
  GetConnection env rt st =
  match tls_step env rt st with
  | mkOutcome (Ok _) st1 calls1 =>
      mkOutcome (res (open_step env rt st1)) (final (open_step env rt st1))
        (calls1 ++ calls (open_step env rt st1))
  | mkOutcome (Fail err) st1 calls1 => mkOutcome (Fail err) st1 calls1
  end.
Proof.
  unfold GetConnection. connection_cases env rt; run_connection;
    rewrite ?Hfile; simp_run; rewrite ?Hcerts; simp_run;
    rewrite ?Hopen; simp_run; rewrite ?Hping; simp_run;
    rewrite ?Hknown; reflexivity.
Qed.

(** X9: [RegisterTlsConfig] succeeds exactly when the certificate file can
    be read and holds at least one certificate; the driver's registration
    is called exactly then; and when it fails the process state is left as
    it was. *)
Theorem RegisterTlsConfig_succeeds_iff (pemPath key serverName : string) :
  let o := RegisterTlsConfig pemPath key serverName rt st in
  let readable :=
    ∃ pem, rt_files rt pemPath = inr pem ∧ rt_pem_certs rt pem ≠ [] in
  (res o = Ok tt ↔ readable)
  ∧ ((∃ k config, ev_mysql_RegisterTLSConfig k config ∈ calls o)
     ↔ readable)
  ∧ (¬ readable → final o = st).
Proof.
  cbv zeta. rewrite RegisterTlsConfig_unfold.
  destruct (rt_files rt pemPath) as [cause|pem].
  { cbn [res final calls]. repeat split; try done.
    - by intros (pem & ? & _).
    - intros (k & config & Hin). not_in_calls Hin.
    - by intros (pem & ? & _). }
  case_bool_decide as Hcerts; cbn [res final calls].
  - repeat split; try done.
    + intros (pem' & [= <-] & Hne). by destruct Hne.
    + intros (k & config & Hin). not_in_calls Hin.
    + intros (pem' & [= <-] & Hne). by destruct Hne.
  - repeat split; try by exists pem.
    + intros _. eexists _, _. do 2 apply list_elem_of_further.
      apply list_elem_of_here.
    + intros Hno. destruct Hno. by exists pem.
Qed.


(** X11: the last registration under a key wins.  After two successful
    registrations under the same key the state is the one the second
    registration alone would have produced. *)
Theorem RegisterTlsConfig_last_wins
    (pemPath1 serverName1 pemPath2 serverName2 key : string) :
  let o1 := RegisterTlsConfig pemPath1 key serverName1 rt st in
  res o1 = Ok tt →
  res (RegisterTlsConfig pemPath2 key serverName2 rt (final o1)) = Ok tt →
  final (RegisterTlsConfig pemPath2 key serverName2 rt (final o1))
  = final (RegisterTlsConfig pemPath2 key serverName2 rt st).
Proof.
  cbv zeta. rewrite !RegisterTlsConfig_unfold.
  destruct (rt_files rt pemPath1) as [cause|pem1]; [done|].
  case_bool_decide as Hcerts1; [done|]. cbn [res final]. intros _.
  destruct (rt_files rt pemPath2) as [cause|pem2]; [done|].
  case_bool_decide as Hcerts2; [done|].
  cbn [res final ConfigFile ConfigEnvironment migSet tlsConfigRegistry].
  intros _. by rewrite insert_insert_eq.
Qed.

(** X12: when the descriptor asks for the custom TLS profile and the
    registration succeeds, the profile is in the registry before the
    database is opened: [sql.Open] and [Ping] see the registry with the
    entry "custom" holding the certificates and the name from MYSQL_HOST,
    the calls are made in the order registration, file read, driver
    registration, open, and that registry is the one left behind. *)
Theorem GetConnection_tls_success (env : Environment) (pem : string) :
  Dialect env = "mysql" →
  isTlsEnabled env = true →
  rt_files rt (os.getenv rt "MYSQL_CA_CERT_FILE") = inr pem →
  rt_pem_certs rt pem ≠ [] →
  let profile :=
    tls.mkConfig (rt_pem_certs rt pem) (os.getenv rt "MYSQL_HOST") in
  let st1 :=
    mkState (ConfigFile st) (ConfigEnvironment st) (migSet st)
      (<["custom" := profile]> (tlsConfigRegistry st)) in
  res (GetConnection env rt st) = res (open_step env rt st1)
  ∧ final (GetConnection env rt st) = st1
  ∧ calls (GetConnection env rt st) =
    [ev_RegisterTlsConfig (os.getenv rt "MYSQL_CA_CERT_FILE") "custom"
       (os.getenv rt "MYSQL_HOST");
     ev_ReadFile (os.getenv rt "MYSQL_CA_CERT_FILE");
     ev_mysql_RegisterTLSConfig "custom" profile;
     ev_sql_Open (Dialect env) (DataSource env)]
    ++ match rt_open rt (<["custom" := profile]> (tlsConfigRegistry st))
               (Dialect env) (DataSource env) with
       | Some _ => []
       | None => [ev_Ping (sql.mkDB (Dialect env) (DataSource env))]
       end.
Proof.
  intros Hd Htls Hpem Hne. cbv zeta. rewrite GetConnection_steps.
  unfold tls_step. rewrite Htls, Hpem.
  rewrite (bool_decide_eq_true_2 (Dialect env = "mysql")) by assumption.
  rewrite (bool_decide_eq_false_2 (rt_pem_certs rt pem = [])) by assumption.
  cbn [andb res final calls]. unfold open_step.
  cbn [tlsConfigRegistry].
  destruct (rt_open rt _ (Dialect env) (DataSource env)); [done|].
  by destruct (rt_ping rt _ _).
Qed.

(** X13: whatever its outcome, [GetConnection] leaves the engine settings
    and the two flag variables as they were, calls none of the engine's
    setters, and changes the TLS registry at most under the key "custom". *)
Theorem GetConnection_frame (env : Environment) :
  let o := GetConnection env rt st in
  migSet (final o) = migSet st
  ∧ ConfigFile (final o) = ConfigFile st
  ∧ ConfigEnvironment (final o) = ConfigEnvironment st
  ∧ (∀ k, k ≠ "custom" →
          tlsConfigRegistry (final o) !! k = tlsConfigRegistry st !! k)
  ∧ (∀ name, ev_SetTable name ∉ calls o)
  ∧ (∀ name, ev_SetSchema name ∉ calls o)
  ∧ (∀ v, ev_SetIgnoreUnknown v ∉ calls o).
Proof.
  cbv zeta. rewrite GetConnection_steps.
  connection_cases env rt; repeat split; try done;
    try (intros k Hk; by apply lookup_insert_ne);
    intros x Hin; not_in_calls Hin.
Qed.

(** X14: [GetConnection] opens nothing but what the descriptor names and
    never retries: every [sql.Open] it calls has the dialect and data source
    of the descriptor, every [Ping] is on that handle and follows a
    successful open, no call is made twice, and a successful return means
    both were called. *)
Theorem GetConnection_call_discipline (env : Environment) :
  let o := GetConnection env rt st in
  let db := sql.mkDB (Dialect env) (DataSource env) in
  (∀ d s, ev_sql_Open d s ∈ calls o → d = Dialect env ∧ s = DataSource env)
  ∧ (∀ db', ev_Ping db' ∈ calls o →
       db' = db
       ∧ ev_sql_Open (Dialect env) (DataSource env) ∈ calls o
       ∧ rt_open rt (tlsConfigRegistry (final o)) (Dialect env)
           (DataSource env) = None)
  ∧ NoDup (calls o)
  ∧ (∀ r, res o = Ok r →
       ev_sql_Open (Dialect env) (DataSource env) ∈ calls o
       ∧ ev_Ping db ∈ calls o).
Proof.
  cbv zeta. rewrite GetConnection_steps.
  connection_cases env rt;
    (split; [|split; [|split]]);
    try (intros d s Hin;
         repeat (apply elem_of_cons in Hin as [Hin|Hin];
                 [first [discriminate Hin | by injection Hin as -> ->]|]);
         by apply elem_of_nil in Hin);
    try (intros db' Hin;
         repeat (apply elem_of_cons in Hin as [Hin|Hin];
                 [first [discriminate Hin
                        | injection Hin as ->;
                          split; [reflexivity|];
                          split; [|assumption];
                          repeat first [apply list_elem_of_here
                                       |apply list_elem_of_further]]|]);
         by apply elem_of_nil in Hin);
    try (repeat (apply NoDup_cons_2;
                 [intros Hin; not_in_calls Hin|]);
         apply NoDup_nil_2);
    try (intros r Hr; discriminate Hr);
    intros r _;
    split; repeat first [apply list_elem_of_here|apply list_elem_of_further].
Qed.

(** X15: the errors of [GetConnection].  A failure is the failure of TLS
    registration wrapped in "cannot register TLS config: " (only for a
    descriptor that asks for the custom profile), or the failure of
    [sql.Open] wrapped in "cannot connect to database: ", or the failure
    of [Ping] wrapped in "cannot ping database: ", each keeping its cause,
    or "unsupported dialect: " followed by the dialect (only for a dialect
    that is not a key of [dialects]). *)
Theorem GetConnection_error_cases (env : Environment) (err : error) :
  res (GetConnection env rt st) = Fail err →
  (∃ cause,
     err = wrapError "cannot register TLS config: " cause
     ∧ Dialect env = "mysql" ∧ isTlsEnabled env = true
     ∧ res (RegisterTlsConfig (os.getenv rt "MYSQL_CA_CERT_FILE") "custom"
              (os.getenv rt "MYSQL_HOST") rt st) = Fail cause)
  ∨ (∃ cause,
       err = wrapError "cannot connect to database: " cause
       ∧ rt_open rt (tlsConfigRegistry (final (GetConnection env rt st)))
           (Dialect env) (DataSource env) = Some cause)
  ∨ (∃ cause,
       err = wrapError "cannot ping database: " cause
       ∧ rt_ping rt (tlsConfigRegistry (final (GetConnection env rt st)))
           (sql.mkDB (Dialect env) (DataSource env)) = Some cause)
  ∨ (err = errorString ("unsupported dialect: " +:+ Dialect env)
     ∧ dialects !! Dialect env = None).
Proof.
  rewrite GetConnection_steps, RegisterTlsConfig_unfold.
  connection_cases env rt; intros Hres; try discriminate Hres;
    injection Hres as <-.
  all: try (apply andb_true_iff in Hguard as [Hd Htls];
            apply bool_decide_eq_true in Hd).
  all: try (left; eexists; split; [reflexivity|];
            split; [assumption|]; split; [assumption|];
            rewrite ?Hcerts; reflexivity).
  all: try (right; left; eexists; split; [reflexivity|]; assumption).
  all: try (right; right; left; eexists; split; [reflexivity|]; assumption).
  all: right; right; right; split; [reflexivity|];
    apply bool_decide_eq_false in Hknown;
    by apply eq_None_not_Some.
Qed.

(** X16: [GetConnection] succeeds exactly when TLS registration is not
    asked for or goes through, [sql.Open] and [Ping] succeed with the
    registry as it then is, and the dialect is a key of [dialects]; the
    handle returned is the one opened for the dialect and data source of
    the descriptor. *)
Theorem GetConnection_succeeds_iff (env : Environment)
    (db : sql.DB) (d : string) :
  let registry := tlsConfigRegistry (final (GetConnection env rt st)) in
  res (GetConnection env rt st) = Ok (db, d) ↔
  db = sql.mkDB (Dialect env) (DataSource env)
  ∧ d = Dialect env
  ∧ (bool_decide (Dialect env = "mysql") && isTlsEnabled env = false
     ∨ ∃ pem, rt_files rt (os.getenv rt "MYSQL_CA_CERT_FILE") = inr pem
              ∧ rt_pem_certs rt pem ≠ [])
  ∧ rt_open rt registry (Dialect env) (DataSource env) = None
  ∧ rt_ping rt registry (sql.mkDB (Dialect env) (DataSource env)) = None
  ∧ is_Some (dialects !! Dialect env).
Proof.
  cbv zeta. rewrite GetConnection_steps.
  connection_cases env rt; split;
    try (intros Hres; discriminate Hres);
    try (intros (_ & _ & [Hno|(pem' & Hpem' & Hne)] & Ho & Hp & Hk);
         first [ discriminate Hno
               | discriminate Hpem'
               | congruence
               | by apply bool_decide_eq_false in Hknown
               | injection Hpem' as <-;
                 by apply bool_decide_eq_true in Hcerts ]).
  all: try (intros [= <- <-]; repeat split; try done;
            [ first [ by left
                    | right; exists pem; split; [reflexivity|];
                      by apply bool_decide_eq_false in Hcerts ]
            | by apply bool_decide_eq_true in Hknown ]).
  all: by intros (-> & -> & _).
Qed.

End OpenerMore.


(** ** The resolver and the opener together *)

Lemma GetConnection_registers_iff (rt : runtime) (st : state)
    (env : Environment) :
  (∃ pemPath key serverName,
     ev_RegisterTlsConfig pemPath key serverName
     ∈ calls (GetConnection env rt st))
  ↔ bool_decide (Dialect env = "mysql") && isTlsEnabled env = true.
Proof.
  rewrite GetConnection_steps.
  connection_cases env rt; split; try done;
    try (intros _; eexists _, _, _; apply list_elem_of_here);
    intros (pemPath & key & serverName & Hin); not_in_calls Hin.
Qed.

(** X17: the TLS decision is taken on the data source after expansion.
    For a valid entry, the descriptor [GetEnvironment] returns makes
    [GetConnection] call [RegisterTlsConfig] exactly when the configured
    dialect is "mysql" and the expanded data source contains "tls=custom",
    whether the marker stands in the configuration file or comes out of an
    environment variable; and when the connection succeeds, the dialect
    returned is the configured one. *)
Theorem GetConnection_after_GetEnvironment (rt : runtime) (st : state)
    (file : string) (config : gmap string (option Environment))
    (env0 : Environment) :
  rt_files rt (ConfigFile st) = inr file →
  rt_yaml rt file = inr config →
  config !! ConfigEnvironment st = Some (Some env0) →
  Dialect env0 ≠ "" →
  DataSource env0 ≠ "" →
  ∃ env,
    res (GetEnvironment rt st) = Ok env
    ∧ ((∃ pemPath key serverName,
          ev_RegisterTlsConfig pemPath key serverName
          ∈ calls (GetConnection env rt (final (GetEnvironment rt st))))
       ↔ Dialect env0 = "mysql"
         ∧ strings.Contains (os.Expand (DataSource env0) (os.getenv rt))
             "tls=custom" = true)
    ∧ ∀ db d,
        res (GetConnection env rt (final (GetEnvironment rt st))) = Ok (db, d)
        → d = Dialect env0.
Proof.
  intros Hfile Hyaml Hkey Hdialect Hsource.
  rewrite (GetEnvironment_entry rt st file config) by assumption.
  unfold map_index. rewrite Hkey. cbn [default from_option id].
  rewrite !bool_decide_eq_false_2 by assumption. cbn [res final].
  exists (resolved rt env0). split; [reflexivity|]. split.
  - rewrite GetConnection_registers_iff. unfold isTlsEnabled.
    cbn [resolved Dialect DataSource].
    by rewrite andb_true_iff, bool_decide_eq_true.
  - intros db d Hres. by apply GetConnection_Ok_inv in Hres as [-> _].
Qed.

(** ** [GetVersion] *)

(** X18: [GetVersion] never returns "(devel)": it returns "dev" when the
    binary carries no build information or the main module's version is
    "(devel)", and the main module's version otherwise. *)
Theorem GetVersion_never_devel (info : option debug.BuildInfo) :
  GetVersion info ≠ "(devel)"
  ∧ (GetVersion info = "dev"
     ↔ info = None
       ∨ ∃ buildInfo,
           info = Some buildInfo
           ∧ (debug.Version (debug.Main buildInfo) = "(devel)"
              ∨ debug.Version (debug.Main buildInfo) = "dev"))
  ∧ ∀ buildInfo,
      info = Some buildInfo →
      debug.Version (debug.Main buildInfo) ≠ "(devel)" →
      GetVersion info = debug.Version (debug.Main buildInfo).
Proof.
  unfold GetVersion. destruct info as [buildInfo|].
  - case_bool_decide as Hversion.
    + split; [assumption|]. split.
      * split.
        -- intros Hdev. right. exists buildInfo. split; [reflexivity|].
           by right.
        -- intros [Hnone|(b & [= <-] & [Hdevel|Hdev])]; [done|done|assumption].
      * by intros b [= <-] _.
    + split; [discriminate|]. split.
      * split; [|reflexivity]. intros _. right. exists buildInfo.
        split; [reflexivity|]. left.
        destruct (decide (debug.Version (debug.Main buildInfo) = "(devel)"));
          [assumption|contradiction].
      * intros b [= <-] Hne. contradiction.
  - split; [discriminate|]. split; [|by intros b Hb].
    split; [by left|reflexivity].
Qed.

(** ** [ConfigFlags] *)

Lemma flag_names_ok :
  strings.HasPrefix "config" "-" = false
  ∧ strings.Contains "config" "=" = false
  ∧ strings.HasPrefix "env" "-" = false
  ∧ strings.Contains "env" "=" = false.
Proof. vm_compute. by repeat split. Qed.



(** X21: the defaults reach the resolver.  Right after [ConfigFlags], with
    no flag set on the command line, [GetEnvironment] reads the file
    "dbconfig.yml" and looks up the environment "development". *)
Theorem GetEnvironment_after_ConfigFlags (rt : runtime)
    (f f' : gmap string flag.Flag) (st st' : state) :
  ConfigFlags f st = flag.Returns (f', st') →
  (∃ later, calls (GetEnvironment rt st') = ev_ReadFile "dbconfig.yml" :: later)
  ∧ ∀ file config,
      rt_files rt "dbconfig.yml" = inr file →
      rt_yaml rt file = inr config →
      (config !! "development" = None →
       res (GetEnvironment rt st')
       = Fail (errors.New "No environment: development"))
      ∧ (∀ env,
           config !! "development" = Some (Some env) →
           Dialect env ≠ "" →
           DataSource env ≠ "" →
           res (GetEnvironment rt st') = Ok (resolved rt env)).
Proof.
  destruct flag_names_ok as (H1 & H2 & H3 & H4).
  unfold ConfigFlags, flag.StringVar. rewrite H1, H2.
  case_bool_decide as Hconfig; [done|]. rewrite H3, H4.
  case_bool_decide as Henv; [done|]. intros [= <- <-]. split.
  - rewrite GetEnvironment_unfold.
    destruct (res (ReadConfig rt _)) as [config|err0]; [|by eexists].
    destruct (map_index config _) as [env|]; [|by eexists].
    do 2 (case_bool_decide; [by eexists|]). by eexists.
  - intros file config Hfile Hyaml.
    rewrite (GetEnvironment_entry rt _ file config) by assumption.
    unfold map_index. cbn [flag.store ConfigEnvironment]. split.
    + by intros ->.
    + intros env -> Hdialect Hsource. cbn [default from_option id].
      by rewrite !bool_decide_eq_false_2.
Qed.

(** ** The further properties at work on the sample processes *)

Lemma GetEnvironment_fails_iff_witness :
  res (GetEnvironment sample_runtime (sample_state "nodialect"))
  = Fail (errors.New "No dialect specified").
Proof.
  apply (GetEnvironment_fails_iff sample_runtime (sample_state "nodialect")).
  right. right. exists "<yaml>", sample_config.
  split; [vm_compute; reflexivity|]. split; [vm_compute; reflexivity|].
  left. split; reflexivity.
Defined.

Lemma GetEnvironment_succeeds_iff_witness :
  ∃ env, res (GetEnvironment sample_runtime (sample_state "production"))
         = Ok env.
Proof.
  apply (GetEnvironment_succeeds_iff sample_runtime
           (sample_state "production")).
  exists "<yaml>", sample_config, env_production.
  split; [vm_compute; reflexivity|]. split; [vm_compute; reflexivity|].
  split; [vm_compute; reflexivity|]. split; simpl; discriminate.
Defined.

Lemma GetEnvironment_result_nonempty_witness :
  res (GetEnvironment sample_runtime (sample_state "development"))
  = Ok (mkEnvironment "sqlite3" "sqlite:///tmp/x.db" "migrations" "" "" false)
  ∧ "sqlite3" ≠ "" ∧ "migrations" ≠ "".
Proof.
  assert (Hres :
    res (GetEnvironment sample_runtime (sample_state "development"))
    = Ok (mkEnvironment "sqlite3" "sqlite:///tmp/x.db" "migrations" "" ""
            false)) by (vm_compute; reflexivity).
  split; [assumption|].
  apply (GetEnvironment_result_nonempty sample_runtime
           (sample_state "development") _ Hres).
Defined.


Lemma GetEnvironment_plain_source_witness :
  all_bytes (λ c, negb (bool_decide (c = "$"%char)))
    (DataSource env_production) = true
  ∧ ∃ env',
      res (GetEnvironment sample_runtime (sample_state "production"))
      = Ok env'
      ∧ DataSource env' = "postgres://u:p@host/db".
Proof.
  split; [vm_compute; reflexivity|].
  apply (GetEnvironment_plain_source sample_runtime
           (sample_state "production") "<yaml>" sample_config env_production).
  - vm_compute; reflexivity.
  - vm_compute; reflexivity.
  - vm_compute; reflexivity.
  - simpl; discriminate.
  - simpl; discriminate.
  - vm_compute; reflexivity.
Defined.

Lemma GetEnvironment_twice_witness :
  res (GetEnvironment sample_runtime (sample_state "production"))
  = Ok (mkEnvironment "postgres" "postgres://u:p@host/db" "migrations"
          "custom_migrations" "" false)
  ∧ GetEnvironment sample_runtime
      (final (GetEnvironment sample_runtime (sample_state "production")))
    = GetEnvironment sample_runtime (sample_state "production").
Proof.
  assert (Hres :
    res (GetEnvironment sample_runtime (sample_state "production"))
    = Ok (mkEnvironment "postgres" "postgres://u:p@host/db" "migrations"
            "custom_migrations" "" false)) by (vm_compute; reflexivity).
  split; [assumption|].
  apply (GetEnvironment_twice sample_runtime (sample_state "production") _
           Hres).
Defined.


Lemma GetEnvironment_selected_entry_only_witness :
  sample_config !! "test" = None
  ∧ (<["test" := Some env_oracle]> sample_config) !! "test"
    = Some (Some env_oracle)
  ∧ GetEnvironment sample_runtime_more (sample_state "production")
    = GetEnvironment sample_runtime (sample_state "production").
Proof.
  split; [vm_compute; reflexivity|]. split; [vm_compute; reflexivity|].
  apply (GetEnvironment_selected_entry_only sample_runtime
           sample_runtime_more (sample_state "production") "<yaml>" "<yaml>"
           sample_config (<["test" := Some env_oracle]> sample_config));
    vm_compute; reflexivity.
Defined.

Lemma RegisterTlsConfig_succeeds_iff_witness :
  res (RegisterTlsConfig "/etc/ssl/rds-ca.pem" "custom" "db.internal"
         tls_runtime (sample_state "development")) = Ok tt.
Proof.
  apply (RegisterTlsConfig_succeeds_iff tls_runtime
           (sample_state "development") "/etc/ssl/rds-ca.pem" "custom"
           "db.internal").
  exists "<pem>". split; [vm_compute; reflexivity|]. vm_compute. discriminate.
Defined.


Lemma RegisterTlsConfig_last_wins_witness :
  final
    (RegisterTlsConfig "/etc/ssl/rds-ca.pem" "custom" "replica.internal"
       tls_runtime
       (final (RegisterTlsConfig "/etc/ssl/rds-ca.pem" "custom" "db.internal"
                 tls_runtime (sample_state "development"))))
  = final
      (RegisterTlsConfig "/etc/ssl/rds-ca.pem" "custom" "replica.internal"
         tls_runtime (sample_state "development")).
Proof.
  apply (RegisterTlsConfig_last_wins tls_runtime (sample_state "development")
           "/etc/ssl/rds-ca.pem" "db.internal" "/etc/ssl/rds-ca.pem"
           "replica.internal" "custom");
    vm_compute; reflexivity.
Defined.

Lemma GetConnection_tls_success_witness :
  Dialect env_aurora = "mysql"
  ∧ isTlsEnabled env_aurora = true
  ∧ rt_files tls_runtime (os.getenv tls_runtime "MYSQL_CA_CERT_FILE")
    = inr "<pem>"
  ∧ rt_pem_certs tls_runtime "<pem>" ≠ []
  ∧ tlsConfigRegistry
      (final (GetConnection env_aurora tls_runtime (sample_state "aurora")))
    = <["custom" := tls.mkConfig ["<rds root ca>"] "db.internal"]> ∅.
Proof.
  assert (Hfile :
    rt_files tls_runtime (os.getenv tls_runtime "MYSQL_CA_CERT_FILE")
    = inr "<pem>") by (vm_compute; reflexivity).
  assert (Hcerts : rt_pem_certs tls_runtime "<pem>" ≠ [])
    by (vm_compute; discriminate).
  assert (Htls : isTlsEnabled env_aurora = true) by (vm_compute; reflexivity).
  split; [reflexivity|]. split; [assumption|]. split; [assumption|].
  split; [assumption|].
  destruct (GetConnection_tls_success tls_runtime (sample_state "aurora")
              env_aurora "<pem>" eq_refl Htls Hfile Hcerts)
    as (_ & Hfinal & _).
  rewrite Hfinal. reflexivity.
Defined.

Lemma GetConnection_frame_witness :
  migSet (final (GetConnection env_aurora tls_runtime (sample_state "aurora")))
  = migSet (sample_state "aurora").
Proof.
  apply (GetConnection_frame tls_runtime (sample_state "aurora") env_aurora).
Defined.

Lemma GetConnection_call_discipline_witness :
  NoDup (calls (GetConnection env_production sample_runtime
                  (sample_state "production"))).
Proof.
  apply (GetConnection_call_discipline sample_runtime
           (sample_state "production") env_production).
Defined.

Lemma GetConnection_error_cases_witness :
  res (GetConnection env_aurora sample_runtime (sample_state "aurora"))
  = Fail (wrapError "cannot register TLS config: "
            (errorString
               "open /nonexistent/ca.pem: no such file or directory"))
  ∧ ((∃ cause,
        wrapError "cannot register TLS config: "
          (errorString "open /nonexistent/ca.pem: no such file or directory")
        = wrapError "cannot register TLS config: " cause)
     ∨ True).
Proof.
  assert (Hres :
    res (GetConnection env_aurora sample_runtime (sample_state "aurora"))
    = Fail (wrapError "cannot register TLS config: "
              (errorString
                 "open /nonexistent/ca.pem: no such file or directory")))
    by (vm_compute; reflexivity).
  split; [assumption|].
  destruct (GetConnection_error_cases sample_runtime (sample_state "aurora")
              env_aurora _ Hres) as [(cause & Hcause & _)|_].
  - left. by exists cause.
  - by right.
Defined.

Lemma GetConnection_succeeds_iff_witness :
  res (GetConnection env_production sample_runtime (sample_state "production"))
  = Ok (sql.mkDB "postgres" "postgres://u:p@host/db", "postgres").
Proof.
  apply (GetConnection_succeeds_iff sample_runtime (sample_state "production")
           env_production).
  split; [reflexivity|]. split; [reflexivity|].
  split; [left; vm_compute; reflexivity|].
  split; [vm_compute; reflexivity|]. split; [vm_compute; reflexivity|].
  vm_compute. by eexists.
Defined.

Lemma GetConnection_after_GetEnvironment_witness :
  rt_files tls_runtime (ConfigFile (sample_state "development"))
  = inr "<yaml>"
  ∧ strings.Contains "$DSN" "tls=custom" = false
  ∧ ∃ env,
      res (GetEnvironment tls_runtime (sample_state "development")) = Ok env
      ∧ ∃ pemPath key serverName,
          ev_RegisterTlsConfig pemPath key serverName
          ∈ calls (GetConnection env tls_runtime
                     (final (GetEnvironment tls_runtime
                               (sample_state "development")))).
Proof.
  split; [vm_compute; reflexivity|]. split; [vm_compute; reflexivity|].
  destruct (GetConnection_after_GetEnvironment tls_runtime
              (sample_state "development") "<yaml>"
              (<["development" :=
                   Some (mkEnvironment "mysql" "$DSN" "" "" "" false)]>
               (<["empty" :=
                   Some (mkEnvironment "sqlite3" "${UNSET}" "" "" "" false)]>
                ∅))
              (mkEnvironment "mysql" "$DSN" "" "" "" false))
    as (env & Hres & Htls & _).
  - vm_compute; reflexivity.
  - vm_compute; reflexivity.
  - vm_compute; reflexivity.
  - simpl; discriminate.
  - simpl; discriminate.
  - exists env. split; [assumption|]. apply Htls.
    split; vm_compute; reflexivity.
Defined.

Lemma GetVersion_never_devel_witness :
  GetVersion
    (Some (debug.mkBuildInfo "go1.22.1"
             (debug.mkModule "github.com/rubenv/sql-migrate" "v1.6.1")))
  = "v1.6.1".
Proof.
  destruct (GetVersion_never_devel
              (Some (debug.mkBuildInfo "go1.22.1"
                       (debug.mkModule "github.com/rubenv/sql-migrate"
                          "v1.6.1"))))
    as (_ & _ & Hversion).
  apply (Hversion _ eq_refl). simpl; discriminate.
Defined.



Lemma GetEnvironment_after_ConfigFlags_witness :
  ∃ f' st',
    ConfigFlags ∅ (mkState "" "" (mkMigrationSet "" "" false) ∅)
    = flag.Returns (f', st')
    ∧ ∃ later,
        calls (GetEnvironment sample_runtime st')
        = ev_ReadFile "dbconfig.yml" :: later.
Proof.
  destruct (ConfigFlags ∅ (mkState "" "" (mkMigrationSet "" "" false) ∅))
    as [[f' st']|msg] eqn:Hrun.
  - exists f', st'. split; [reflexivity|].
    apply (GetEnvironment_after_ConfigFlags sample_runtime ∅ f' _ st' Hrun).
  - vm_compute in Hrun. discriminate Hrun.
Defined.
